(** * goscraper: a shallow embedding of the metadata scraper

    The embedded program is the current [goscraper] package
    ([Scraper], [getDocument], [toFragmentUrl], [parseDocument],
    [avoidByte], [escapeByte], [metaFragment], [cleanStr]).  The parts of the
    Go standard library the code calls ([net/url], [strings], the [range]
    loop over runes) are embedded alongside, from their Go sources; the
    HTML tokenizer and the HTTP transport are the program's boundaries and
    appear as a token list and as a record of functions. *)

From Stdlib Require Import String Ascii List ZArith Bool Lia.
Import ListNotations.
Open Scope string_scope.

(* ------------------------------------------------------------------ *)
(** ** Bytes and Go string functions *)

Module GoStr.

Definition ord (c : ascii) : nat := nat_of_ascii c.

Definition is_lower (c : ascii) : bool := (97 <=? ord c)%nat && (ord c <=? 122)%nat.
Definition is_upper (c : ascii) : bool := (65 <=? ord c)%nat && (ord c <=? 90)%nat.
Definition is_alpha (c : ascii) : bool := is_lower c || is_upper c.
Definition is_digit (c : ascii) : bool := (48 <=? ord c)%nat && (ord c <=? 57)%nat.
Definition is_alnum (c : ascii) : bool := is_alpha c || is_digit c.

Definition in_set (set : string) (c : ascii) : bool :=
  existsb (fun d => Ascii.eqb c d) (list_ascii_of_string set).

(** [strings.Contains] *)
Definition contains (s sub : string) : bool :=
  match index 0 sub s with Some _ => true | None => false end.

(** [strings.Index], [-1] as [None] *)
Definition str_index (s sub : string) : option nat := index 0 sub s.

Definition drop (n : nat) (s : string) : string := substring n (String.length s - n) s.
Definition take (n : nat) (s : string) : string := substring 0 n s.

(** [strings.Cut] on a one-byte separator *)
Fixpoint cut (s : string) (sep : ascii) : string * string * bool :=
  match s with
  | EmptyString => (EmptyString, EmptyString, false)
  | String c r =>
      if Ascii.eqb c sep then (EmptyString, r, true)
      else let '(b, a, f) := cut r sep in (String c b, a, f)
  end.

(** [strings.LastIndexByte] *)
Fixpoint last_index_byte (s : string) (c : ascii) : option nat :=
  match s with
  | EmptyString => None
  | String d r =>
      match last_index_byte r c with
      | Some i => Some (S i)
      | None => if Ascii.eqb c d then Some 0 else None
      end
  end.

(** [strings.Count] of a one-byte substring *)
Fixpoint count_byte (s : string) (c : ascii) : nat :=
  match s with
  | EmptyString => 0
  | String d r => (if Ascii.eqb c d then 1 else 0) + count_byte r c
  end.

Definition has_prefix (s p : string) : bool := prefix p s.

Fixpoint has_suffix_byte (s : string) (c : ascii) : bool :=
  match s with
  | EmptyString => false
  | String d EmptyString => Ascii.eqb c d
  | String _ r => has_suffix_byte r c
  end.

(** [strings.Replace(s, old, new, 1)] *)
Definition replace1 (s old new : string) : string :=
  match index 0 old s with
  | Some i => take i s ++ new ++ drop (i + String.length old) s
  | None => s
  end.

(** ASCII part of [strings.ToLower] and [strings.TrimSpace]: the page's
    attribute names and values compared here are ASCII. *)
Definition lower_char (c : ascii) : ascii :=
  if is_upper c then ascii_of_nat (ord c + 32) else c.

Fixpoint to_lower (s : string) : string :=
  match s with
  | EmptyString => EmptyString
  | String c r => String (lower_char c) (to_lower r)
  end.

Definition is_space (c : ascii) : bool :=
  let n := ord c in
  ((9 <=? n)%nat && (n <=? 13)%nat) || (n =? 32)%nat.

Fixpoint trim_left (s : string) : string :=
  match s with
  | EmptyString => EmptyString
  | String c r => if is_space c then trim_left r else s
  end.

Definition rev_str (s : string) : string :=
  string_of_list_ascii (rev (list_ascii_of_string s)).

Definition trim_space (s : string) : string :=
  rev_str (trim_left (rev_str (trim_left s))).

End GoStr.

Import GoStr.

(** [cleanStr] *)
Definition cleanStr (s : string) : string := to_lower (trim_space s).

(* ------------------------------------------------------------------ *)
(** ** Errors and results *)

(** The errors the program can return; [OutOfFuel] only bounds the
    embedding of the redirect recursion (see [parseDocument]). *)
Inductive go_error :=
| EscapeError (s : string)
| InvalidHostError (s : string)
| UrlError (msg : string)
| TransportError
| ContentLengthExceeded
| OutOfFuel.

(** A returned value, a returned error, or a run-time panic. *)
Inductive result (A : Type) :=
| Ok (a : A)
| Err (e : go_error)
| Panic (msg : string).
Arguments Ok {A} a.
Arguments Err {A} e.
Arguments Panic {A} msg.

Definition rbind {A B} (r : result A) (k : A -> result B) : result B :=
  match r with Ok a => k a | Err e => Err e | Panic m => Panic m end.

Notation "x <-? r ;; k" := (rbind r (fun x => k))
  (at level 61, r at next level, right associativity).

(* ------------------------------------------------------------------ *)
(** ** [net/url] *)

Module GoUrl.

Inductive encoding :=
| encodePath | encodePathSegment | encodeHost | encodeZone
| encodeUserPassword | encodeQueryComponent | encodeFragment.

Definition is_host_mode (m : encoding) : bool :=
  match m with encodeHost | encodeZone => true | _ => false end.

Definition shouldEscape (c : ascii) (mode : encoding) : bool :=
  if is_alnum c then false
  else if is_host_mode mode && (in_set "!$&'()*+,;=:[]<>" c || Ascii.eqb c (ascii_of_nat 34)) then false
  else if in_set "-_.~" c then false
  else if in_set "$&+,/:;=?@" c then
    match mode with
    | encodePath => Ascii.eqb c "?"
    | encodePathSegment => in_set "/;,?" c
    | encodeUserPassword => in_set "@/?:" c
    | encodeQueryComponent => true
    | encodeFragment => false
    | _ => true
    end
  else if (match mode with encodeFragment => true | _ => false end)
          && in_set "!()*" c then false
  else true.

Definition ishex (c : ascii) : bool :=
  is_digit c || ((97 <=? ord c) && (ord c <=? 102))%nat
             || ((65 <=? ord c) && (ord c <=? 70))%nat.

Definition unhex (c : ascii) : nat :=
  if is_digit c then ord c - 48
  else if ((97 <=? ord c) && (ord c <=? 102))%nat then ord c - 87
  else if ((65 <=? ord c) && (ord c <=? 70))%nat then ord c - 55
  else 0.

Definition upperhex : string := "0123456789ABCDEF".

Definition hexdigit (n : nat) : ascii :=
  match get n upperhex with Some c => c | None => "0"%char end.

(** The first loop of [unescape]: the validity checks. *)
Fixpoint unescape_check (s : string) (mode : encoding) : option go_error :=
  match s with
  | EmptyString => None
  | String c r =>
      if Ascii.eqb c "%" then
        match r with
        | String h1 (String h2 r') =>
            if negb (ishex h1 && ishex h2) then Some (EscapeError (take 3 s))
            else if (match mode with encodeHost => true | _ => false end)
                    && (unhex h1 <? 8)%nat
                    && negb (String.eqb (take 3 s) "%25")
            then Some (EscapeError (take 3 s))
            else if (match mode with encodeZone => true | _ => false end)
                    && negb (String.eqb (take 3 s) "%25")
                    && negb ((unhex h1 * 16 + unhex h2 =? 32)%nat)
                    && shouldEscape (ascii_of_nat (unhex h1 * 16 + unhex h2)) encodeHost
            then Some (EscapeError (take 3 s))
            else unescape_check r' mode
        | _ => Some (EscapeError (take 3 s))
        end
      else if Ascii.eqb c "+" then unescape_check r mode
      else if is_host_mode mode && (ord c <? 128)%nat && shouldEscape c mode
      then Some (InvalidHostError (String c EmptyString))
      else unescape_check r mode
  end.

(** The second loop of [unescape]: decoding (on checked input). *)
Fixpoint unescape_decode (s : string) (mode : encoding) : string :=
  match s with
  | EmptyString => EmptyString
  | String c r =>
      if Ascii.eqb c "%" then
        match r with
        | String h1 (String h2 r') =>
            String (ascii_of_nat (unhex h1 * 16 + unhex h2)) (unescape_decode r' mode)
        | _ => EmptyString
        end
      else if Ascii.eqb c "+" then
        String (match mode with encodeQueryComponent => " "%char | _ => "+"%char end)
               (unescape_decode r mode)
      else String c (unescape_decode r mode)
  end.

Definition unescape (s : string) (mode : encoding) : result string :=
  match unescape_check s mode with
  | Some e => Err e
  | None => Ok (unescape_decode s mode)
  end.

Fixpoint escape (s : string) (mode : encoding) : string :=
  match s with
  | EmptyString => EmptyString
  | String c r =>
      if shouldEscape c mode then
        if Ascii.eqb c " " && (match mode with encodeQueryComponent => true | _ => false end)
        then String "+" (escape r mode)
        else String "%" (String (hexdigit (ord c / 16)) (String (hexdigit (ord c mod 16))
               (escape r mode)))
      else String c (escape r mode)
  end.

(** [url.QueryUnescape] and [url.QueryEscape] *)
Definition QueryUnescape (s : string) : result string := unescape s encodeQueryComponent.
Definition QueryEscape (s : string) : string := escape s encodeQueryComponent.

Definition validEncoded (s : string) (mode : encoding) : bool :=
  forallb (fun c => in_set "!$&'()*+,;=:@" c || in_set "[]" c || Ascii.eqb c "%"
                    || negb (shouldEscape c mode))
          (list_ascii_of_string s).

Record userinfo := mkUserinfo { username : string; password : option string }.

Record url := mkUrl {
  Scheme : string;
  Opaque : string;
  User : option userinfo;
  Host : string;
  Path : string;
  RawPath : string;
  OmitHost : bool;
  ForceQuery : bool;
  RawQuery : string;
  Fragment : string;
  RawFragment : string
}.

Definition empty_url : url := mkUrl "" "" None "" "" "" false false "" "" "".

Definition set_scheme (u : url) (s : string) : url :=
  mkUrl s u.(Opaque) u.(User) u.(Host) u.(Path) u.(RawPath) u.(OmitHost)
        u.(ForceQuery) u.(RawQuery) u.(Fragment) u.(RawFragment).
Definition set_host (u : url) (h : string) : url :=
  mkUrl u.(Scheme) u.(Opaque) u.(User) h u.(Path) u.(RawPath) u.(OmitHost)
        u.(ForceQuery) u.(RawQuery) u.(Fragment) u.(RawFragment).

(** [URL.IsAbs] *)
Definition IsAbs (u : url) : bool := negb (String.eqb u.(Scheme) "").

(** [URL.setPath] *)
Definition setPath (u : url) (p : string) : result url :=
  path <-? unescape p encodePath ;;
  let raw := if String.eqb p (escape path encodePath) then "" else p in
  Ok (mkUrl u.(Scheme) u.(Opaque) u.(User) u.(Host) path raw u.(OmitHost)
            u.(ForceQuery) u.(RawQuery) u.(Fragment) u.(RawFragment)).

(** [URL.setFragment] *)
Definition setFragment (u : url) (f : string) : result url :=
  frag <-? unescape f encodeFragment ;;
  let raw := if String.eqb f (escape frag encodeFragment) then "" else f in
  Ok (mkUrl u.(Scheme) u.(Opaque) u.(User) u.(Host) u.(Path) u.(RawPath) u.(OmitHost)
            u.(ForceQuery) u.(RawQuery) frag raw).

(** [getScheme]: where the scheme ends, if anywhere *)
Inductive scheme_scan := NoScheme | MissingScheme | SchemeEnd (i : nat).

Fixpoint scheme_end (s : string) (i : nat) : scheme_scan :=
  match s with
  | EmptyString => NoScheme
  | String c r =>
      if is_alpha c then scheme_end r (S i)
      else if is_digit c || in_set "+-." c then
        if (i =? 0)%nat then NoScheme else scheme_end r (S i)
      else if Ascii.eqb c ":" then
        if (i =? 0)%nat then MissingScheme else SchemeEnd i
      else NoScheme
  end.

Definition getScheme (raw : string) : result (string * string) :=
  match scheme_end raw 0 with
  | NoScheme => Ok ("", raw)
  | MissingScheme => Err (UrlError "missing protocol scheme")
  | SchemeEnd i => Ok (take i raw, drop (S i) raw)
  end.

Definition validOptionalPort (port : string) : bool :=
  match port with
  | EmptyString => true
  | String c r => Ascii.eqb c ":" && forallb is_digit (list_ascii_of_string r)
  end.

Definition validUserinfo (s : string) : bool :=
  forallb (fun c => is_alnum c || in_set "-._:~!$&'()*+,;=%@" c) (list_ascii_of_string s).

(** [parseHost] *)
Definition parseHost (host : string) : result string :=
  if has_prefix host "[" then
    match last_index_byte host "]" with
    | None => Err (UrlError "missing ']' in host")
    | Some i =>
        if negb (validOptionalPort (drop (S i) host)) then Err (UrlError "invalid port after host")
        else match str_index (take i host) "%25" with
        | Some z =>
            h1 <-? unescape (take z host) encodeHost ;;
            h2 <-? unescape (substring z (i - z) host) encodeZone ;;
            h3 <-? unescape (drop i host) encodeHost ;;
            Ok (h1 ++ h2 ++ h3)
        | None => unescape host encodeHost
        end
    end
  else
    match last_index_byte host ":" with
    | Some i =>
        if negb (validOptionalPort (drop i host)) then Err (UrlError "invalid port after host")
        else unescape host encodeHost
    | None => unescape host encodeHost
    end.

(** [parseAuthority] *)
Definition parseAuthority (authority : string) : result (option userinfo * string) :=
  match last_index_byte authority "@" with
  | None => h <-? parseHost authority ;; Ok (None, h)
  | Some i =>
      h <-? parseHost (drop (S i) authority) ;;
      let ui := take i authority in
      if negb (validUserinfo ui) then Err (UrlError "net/url: invalid userinfo")
      else if negb (contains ui ":") then
        n <-? unescape ui encodeUserPassword ;; Ok (Some (mkUserinfo n None), h)
      else
        let '(n0, p0, _) := cut ui ":" in
        n <-? unescape n0 encodeUserPassword ;;
        p <-? unescape p0 encodeUserPassword ;;
        Ok (Some (mkUserinfo n (Some p)), h)
  end.

Definition stringContainsCTLByte (s : string) : bool :=
  existsb (fun c => (ord c <? 32)%nat || (ord c =? 127)%nat) (list_ascii_of_string s).

(** [parse(rawURL, viaRequest=false)] *)
Definition parse (raw : string) : result url :=
  if stringContainsCTLByte raw then Err (UrlError "net/url: invalid control character in URL")
  else if String.eqb raw "*" then Ok (mkUrl "" "" None "" "*" "" false false "" "" "")
  else
  sr <-? getScheme raw ;;
  let scheme := to_lower (fst sr) in
  let rest0 := snd sr in
  let '(rest, force, rq) :=
    if has_suffix_byte rest0 "?" && (count_byte rest0 "?" =? 1)%nat
    then (take (String.length rest0 - 1) rest0, true, "")
    else let '(b, a, _) := cut rest0 "?" in (b, false, a) in
  let u0 := mkUrl scheme "" None "" "" "" false force rq "" "" in
  if negb (has_prefix rest "/") && negb (String.eqb scheme "") then
    Ok (mkUrl scheme rest None "" "" "" false force rq "" "")
  else if negb (has_prefix rest "/")
          && contains (fst (fst (cut rest "/"))) ":" then
    Err (UrlError "first path segment in URL cannot contain colon")
  else if (negb (String.eqb scheme "") || negb (has_prefix rest "///"))
          && has_prefix rest "//" then
    let auth0 := drop 2 rest in
    let '(authority, rest') :=
      match str_index auth0 "/" with
      | Some i => (take i auth0, drop i auth0)
      | None => (auth0, "")
      end in
    uh <-? parseAuthority authority ;;
    setPath (mkUrl scheme "" (fst uh) (snd uh) "" "" false force rq "" "") rest'
  else if negb (String.eqb scheme "") && has_prefix rest "/" then
    setPath (mkUrl scheme "" None "" "" "" true force rq "" "") rest
  else setPath u0 rest.

(** [url.Parse] *)
Definition Parse (raw : string) : result url :=
  let '(u, frag, _) := cut raw "#" in
  v <-? parse u ;;
  if String.eqb frag "" then Ok v else setFragment v frag.

Definition EscapedPath (u : url) : string :=
  if negb (String.eqb u.(RawPath) "") && validEncoded u.(RawPath) encodePath
     && (match unescape u.(RawPath) encodePath with
         | Ok p => String.eqb p u.(Path) | _ => false end)
  then u.(RawPath)
  else if String.eqb u.(Path) "*" then "*"
  else escape u.(Path) encodePath.

Definition EscapedFragment (u : url) : string :=
  if negb (String.eqb u.(RawFragment) "") && validEncoded u.(RawFragment) encodeFragment
     && (match unescape u.(RawFragment) encodeFragment with
         | Ok f => String.eqb f u.(Fragment) | _ => false end)
  then u.(RawFragment)
  else escape u.(Fragment) encodeFragment.

Definition userinfo_string (ui : userinfo) : string :=
  escape ui.(username) encodeUserPassword ++
  match ui.(password) with
  | Some p => ":" ++ escape p encodeUserPassword
  | None => ""
  end.

(** [URL.String] *)
Definition String_ (u : url) : string :=
  let head := if String.eqb u.(Scheme) "" then "" else u.(Scheme) ++ ":" in
  let body :=
    if negb (String.eqb u.(Opaque) "") then u.(Opaque)
    else
      let auth :=
        if negb (String.eqb u.(Scheme) "") || negb (String.eqb u.(Host) "")
           || (match u.(User) with Some _ => true | None => false end) then
          if u.(OmitHost) && String.eqb u.(Host) ""
             && (match u.(User) with None => true | Some _ => false end) then ""
          else
            (if negb (String.eqb u.(Host) "") || negb (String.eqb u.(Path) "")
                || (match u.(User) with Some _ => true | None => false end)
             then "//" else "") ++
            (match u.(User) with Some ui => userinfo_string ui ++ "@" | None => "" end) ++
            (if String.eqb u.(Host) "" then "" else escape u.(Host) encodeHost)
        else "" in
      let path := EscapedPath u in
      let slash :=
        match path with
        | String c _ => if negb (Ascii.eqb c "/") && negb (String.eqb u.(Host) "")
                        then "/" else ""
        | EmptyString => ""
        end in
      let sofar := head ++ auth ++ slash in
      let dot :=
        if String.eqb sofar "" && contains (fst (fst (cut path "/"))) ":" then "./" else "" in
      auth ++ slash ++ dot ++ path in
  head ++ body ++
  (if u.(ForceQuery) || negb (String.eqb u.(RawQuery) "") then "?" ++ u.(RawQuery) else "") ++
  (if String.eqb u.(Fragment) "" then "" else "#" ++ EscapedFragment u).

(** [parseQuery]: whether [url.Values] gets at least one key *)
Definition query_segment_ok (seg : string) : bool :=
  if contains seg ";" then false
  else if String.eqb seg "" then false
  else let '(k, v, _) := cut seg "=" in
       match QueryUnescape k, QueryUnescape v with
       | Ok _, Ok _ => true
       | _, _ => false
       end.

Fixpoint split_amp (s : string) (fuel : nat) : list string :=
  match fuel with
  | O => []
  | S f =>
      match s with
      | EmptyString => []
      | _ => let '(k, rest, _) := cut s "&" in k :: split_amp rest f
      end
  end.

(** [len(u.Query()) > 0] *)
Definition query_nonempty (u : url) : bool :=
  existsb query_segment_ok (split_amp u.(RawQuery) (S (String.length u.(RawQuery)))).

End GoUrl.

Import GoUrl.

(* ------------------------------------------------------------------ *)
(** ** Runes: [utf8.DecodeRuneInString] and [string(r)] *)

Module GoRune.
Local Open Scope N_scope.

Definition bval (c : ascii) : N := N_of_ascii c.

Definition RuneError : N := 65533.

Definition cont (b : N) : bool := (128 <=? b) && (b <=? 191).

(** One step of [for _, r := range s]: the rune and the rest of [s];
    an invalid encoding yields [RuneError] and consumes one byte. *)
Definition decode_rune (c0 : ascii) (r0 : string) : N * string :=
  let b0 := bval c0 in
  if b0 <? 128 then (b0, r0)
  else if (b0 <? 194) || (244 <? b0) then (RuneError, r0)
  else
    let sz := if b0 <? 224 then 2 else if b0 <? 240 then 3 else 4 in
    let lo := if b0 =? 224 then 160 else if b0 =? 240 then 144 else 128 in
    let hi := if b0 =? 237 then 159 else if b0 =? 244 then 143 else 191 in
    match r0 with
    | String c1 r1 =>
        let b1 := bval c1 in
        if negb ((lo <=? b1) && (b1 <=? hi)) then (RuneError, r0)
        else if sz =? 2 then ((b0 - 192) * 64 + (b1 - 128), r1)
        else match r1 with
        | String c2 r2 =>
            let b2 := bval c2 in
            if negb (cont b2) then (RuneError, r0)
            else if sz =? 3 then ((b0 - 224) * 4096 + (b1 - 128) * 64 + (b2 - 128), r2)
            else match r2 with
            | String c3 r3 =>
                let b3 := bval c3 in
                if negb (cont b3) then (RuneError, r0)
                else ((b0 - 240) * 262144 + (b1 - 128) * 4096 + (b2 - 128) * 64
                      + (b3 - 128), r3)
            | EmptyString => (RuneError, r0)
            end
        | EmptyString => (RuneError, r0)
        end
    | EmptyString => (RuneError, r0)
    end.

Fixpoint runes_fuel (fuel : nat) (s : string) : list N :=
  match fuel, s with
  | O, _ => []
  | _, EmptyString => []
  | S f, String c r => let '(rn, rest) := decode_rune c r in rn :: runes_fuel f rest
  end.

(** The runes a [range] loop visits (each step consumes at least one byte). *)
Definition runes (s : string) : list N := runes_fuel (String.length s) s.

Definition byte (n : N) : ascii := ascii_of_N n.

(** [string(r)]: the UTF-8 encoding of a rune *)
Definition rune_string (r : N) : string :=
  let r := if ((55296 <=? r) && (r <=? 57343)) || (1114111 <? r) then RuneError else r in
  if r <? 128 then String (byte r) EmptyString
  else if r <? 2048 then
    String (byte (192 + r / 64)) (String (byte (128 + r mod 64)) EmptyString)
  else if r <? 65536 then
    String (byte (224 + r / 4096)) (String (byte (128 + (r / 64) mod 64))
      (String (byte (128 + r mod 64)) EmptyString))
  else
    String (byte (240 + r / 262144)) (String (byte (128 + (r / 4096) mod 64))
      (String (byte (128 + (r / 64) mod 64)) (String (byte (128 + r mod 64)) EmptyString))).

End GoRune.

Import GoRune.

(* ------------------------------------------------------------------ *)
(** ** The scraper *)

(** [EscapedFragment] *)
Definition EscapedFragment_ : string := "_escaped_fragment_=".

(** [avoidByte] and [escapeByte], on [int(b)] *)
Definition avoidByte (i : N) : bool := (i =? 127)%N || (i <=? 31)%N.

Definition escapeByte (i : N) : bool :=
  (i =? 32)%N || (i =? 35)%N || (i =? 37)%N || (i =? 38)%N || (i =? 43)%N
  || ((127 <=? i)%N && (i <=? 255)%N).

Record ScraperOptions := mkOptions {
  MaxDocumentLength : Z;
  UserAgent : string
}.

Record Scraper := mkScraper {
  Url : url;
  EscapedFragmentUrl : option url;
  MaxRedirect : Z;
  Options : ScraperOptions
}.

Definition set_Url (sc : Scraper) (u : url) : Scraper :=
  mkScraper u sc.(EscapedFragmentUrl) sc.(MaxRedirect) sc.(Options).
Definition set_EscapedFragmentUrl (sc : Scraper) (u : option url) : Scraper :=
  mkScraper sc.(Url) u sc.(MaxRedirect) sc.(Options).
Definition set_MaxRedirect (sc : Scraper) (n : Z) : Scraper :=
  mkScraper sc.(Url) sc.(EscapedFragmentUrl) n sc.(Options).

(** Code that mutates the scraper: explicit state passing. *)
Definition M (A : Type) : Type := Scraper -> Scraper * result A.

(** [fragmentRegexp.FindStringSubmatch]: the match starts at the leftmost
    hash-bang, and the dot-star group runs to the first newline byte
    (the dot matches everything but a newline). *)
Definition fragmentMatch (s : string) : option (string * string) :=
  match str_index s "#!" with
  | Some i =>
      let m1 := fst (fst (cut (drop (i + 2) s) "010"%char)) in
      Some ("#!" ++ m1, m1)
  | None => None
  end.

(** One iteration of the loop over [matches[1]] in [toFragmentUrl]. *)
Definition fragment_step (escapedFragment : string) (r : N) : string :=
  let b := (r mod 256)%N in
  if avoidByte b then escapedFragment
  else if escapeByte b then escapedFragment ++ QueryEscape (rune_string r)
  else escapedFragment ++ rune_string r.

Definition escaped_fragment_of (payload : string) : string :=
  fold_left fragment_step (runes payload) EscapedFragment_.

(** [toFragmentUrl]; the [error] it returns is the result. *)
Definition toFragmentUrl : M unit := fun sc =>
  match QueryUnescape (String_ sc.(Url)) with
  | Err e => (sc, Err e)
  | Panic m => (sc, Panic m)
  | Ok unescapedurl =>
      let p := if query_nonempty sc.(Url) then "&" else "?" in
      let target :=
        match fragmentMatch unescapedurl with
        | Some (m0, m1) => replace1 unescapedurl m0 (p ++ escaped_fragment_of m1)
        | None => unescapedurl ++ p ++ EscapedFragment_
        end in
      match Parse target with
      | Ok fragmentUrl => (set_EscapedFragmentUrl sc (Some fragmentUrl), Ok tt)
      | Err e => (sc, Err e)
      | Panic m => (sc, Panic m)
      end
  end.

(** [getUrl] *)
Definition getUrl (sc : Scraper) : string :=
  match sc.(EscapedFragmentUrl) with
  | Some u => String_ u
  | None => String_ sc.(Url)
  end.

(** *** The token stream (the [html.Tokenizer] boundary)

    A document body is the list of tokens the tokenizer yields for it; the
    end of the list is where [Next] returns [ErrorToken] (and keeps
    returning it). *)
Inductive TokenType :=
| TextToken | StartTagToken | EndTagToken | SelfClosingTagToken
| CommentToken | DoctypeToken.

Record Attribute := mkAttr { Key : string; Val : string }.

Record Token := mkToken { TType : TokenType; Data : string; Attr : list Attribute }.

Record DocumentPreview := mkPreview {
  Icon : string;
  Name : string;
  Title : string;
  Description : string;
  Type_ : string;
  Images : list string;
  Link : string
}.

Record Document := mkDocument {
  Body : list Token;
  Preview : DocumentPreview;
  ContentType : string
}.

Definition empty_preview : DocumentPreview := mkPreview "" "" "" "" "" [] "".

Definition with_Icon p v := mkPreview v p.(Name) p.(Title) p.(Description) p.(Type_) p.(Images) p.(Link).
Definition with_Name p v := mkPreview p.(Icon) v p.(Title) p.(Description) p.(Type_) p.(Images) p.(Link).
Definition with_Title p v := mkPreview p.(Icon) p.(Name) v p.(Description) p.(Type_) p.(Images) p.(Link).
Definition with_Description p v := mkPreview p.(Icon) p.(Name) p.(Title) v p.(Type_) p.(Images) p.(Link).
Definition with_Type p v := mkPreview p.(Icon) p.(Name) p.(Title) p.(Description) v p.(Images) p.(Link).
Definition with_Images p v := mkPreview p.(Icon) p.(Name) p.(Title) p.(Description) p.(Type_) v p.(Link).
Definition with_Link p v := mkPreview p.(Icon) p.(Name) p.(Title) p.(Description) p.(Type_) p.(Images) v.

(** *** The HTTP transport (the [http.DefaultClient] boundary)

    [head ua u] is [None] when the HEAD request fails and the response's
    [ContentLength] otherwise; [get ua u limit] is the response of the GET
    request with its body read through [http.MaxBytesReader] (when
    [limit > 0]) and [convertUTF8], then tokenized; a failure of the request
    or of the read is an [Err]. *)
Record Response := mkResponse {
  RequestURL : url;
  RespContentType : string;
  RespBody : list Token
}.

Record Transport := mkTransport {
  head : string -> string -> option Z;
  get : string -> string -> Z -> result Response
}.

(** [getDocument] *)
Definition getDocument (T : Transport) : M Document := fun sc0 =>
  let sc1 := set_MaxRedirect sc0 (sc0.(MaxRedirect) - 1) in
  let sc2 := if contains (String_ sc1.(Url)) "#!" then fst (toFragmentUrl sc1) else sc1 in
  let sc := if contains (String_ sc2.(Url)) EscapedFragment_
            then set_EscapedFragmentUrl sc2 (Some sc2.(Url)) else sc2 in
  let userAgent := if String.eqb sc.(Options).(UserAgent) "" then "GoScraper"
                   else sc.(Options).(UserAgent) in
  let maxLen := sc.(Options).(MaxDocumentLength) in
  let headCheck :=
    if (0 <? maxLen)%Z then
      match Parse (getUrl sc) with
      | Ok _ =>
          match T.(head) userAgent (getUrl sc) with
          | Some len => if (maxLen <? len)%Z then Some ContentLengthExceeded else None
          | None => None
          end
      | _ => None
      end
    else None in
  match headCheck with
  | Some e => (sc, Err e)
  | None =>
      match Parse (getUrl sc) with
      | Err e => (sc, Err e)
      | Panic m => (sc, Panic m)
      | Ok _ =>
          match T.(get) userAgent (getUrl sc) maxLen with
          | Err e => (sc, Err e)
          | Panic m => (sc, Panic m)
          | Ok resp =>
              let sc' := if negb (String.eqb (String_ resp.(RequestURL)) (getUrl sc))
                         then set_Url (set_EscapedFragmentUrl sc None) resp.(RequestURL)
                         else sc in
              (sc', Ok (mkDocument resp.(RespBody)
                          (with_Link empty_preview (String_ sc'.(Url)))
                          resp.(RespContentType)))
          end
      end
  end.

(** *** [parseDocument] *)

(** The loop variables of [parseDocument] ([link] is fixed before the loop
    and passed separately). *)
Record ScanState := mkScan {
  ogImage : bool;
  headPassed : bool;
  hasFragment : bool;
  hasCanonical : bool;
  canonicalUrl : option url;
  preview : DocumentPreview
}.

Definition set_preview (ls : ScanState) (p : DocumentPreview) : ScanState :=
  mkScan ls.(ogImage) ls.(headPassed) ls.(hasFragment) ls.(hasCanonical) ls.(canonicalUrl) p.
Definition set_headPassed (ls : ScanState) : ScanState :=
  mkScan ls.(ogImage) true ls.(hasFragment) ls.(hasCanonical) ls.(canonicalUrl) ls.(preview).
Definition set_hasFragment (ls : ScanState) : ScanState :=
  mkScan ls.(ogImage) ls.(headPassed) true ls.(hasCanonical) ls.(canonicalUrl) ls.(preview).
Definition set_canonical (ls : ScanState) (u : url) : ScanState :=
  mkScan ls.(ogImage) ls.(headPassed) ls.(hasFragment) true (Some u) ls.(preview).
Definition set_ogImage (ls : ScanState) : ScanState :=
  mkScan true ls.(headPassed) ls.(hasFragment) ls.(hasCanonical) ls.(canonicalUrl) ls.(preview).

(** [metaFragment] *)
Definition metaFragment (t : Token) : bool :=
  let '(name, content) :=
    fold_left (fun nc a =>
                 (if String.eqb (cleanStr a.(Key)) "name" then a.(Val) else fst nc,
                  if String.eqb (cleanStr a.(Key)) "content" then a.(Val) else snd nc))
              t.(Attr) ("", "") in
  String.eqb name "fragment" && String.eqb content "!".

(** The [property] and [content] read by the [meta] case. *)
Definition meta_property_content (attrs : list Attribute) : string * string :=
  fold_left (fun pc a =>
               (if String.eqb (cleanStr a.(Key)) "property" || String.eqb (cleanStr a.(Key)) "name"
                then a.(Val) else fst pc,
                if String.eqb (cleanStr a.(Key)) "content" then a.(Val) else snd pc))
            attrs ("", "").

(** The loop over the attributes of a [link] tag, with its locals
    [canonical], [hasIcon] and [href]. *)
Fixpoint link_attrs (link : string) (attrs : list Attribute)
         (canonical hasIcon : bool) (href : string) (ls : ScanState) : result ScanState :=
  match attrs with
  | [] => Ok ls
  | a :: rest =>
      let canonical := canonical || (String.eqb (cleanStr a.(Key)) "rel"
                                      && String.eqb (cleanStr a.(Val)) "canonical") in
      let hasIcon := hasIcon || (String.eqb (cleanStr a.(Key)) "rel"
                                  && contains (cleanStr a.(Val)) "icon") in
      let href := if String.eqb (cleanStr a.(Key)) "href" then a.(Val) else href in
      ls1 <-? (if (0 <? String.length href)%nat && canonical && negb (String.eqb link href)
               then cu <-? Parse href ;; Ok (set_canonical ls cu)
               else Ok ls) ;;
      let ls2 := if (0 <? String.length href)%nat && hasIcon
                 then set_preview ls1 (with_Icon ls1.(preview) href) else ls1 in
      link_attrs link rest canonical hasIcon href ls2
  end.

(** The [meta] case. *)
Definition handle_meta (sc : Scraper) (t : Token) (ls : ScanState) : result ScanState :=
  if negb (List.length t.(Attr) =? 2)%nat then Ok ls
  else
    let ls := if metaFragment t && (match sc.(EscapedFragmentUrl) with None => true | Some _ => false end)
              then set_hasFragment ls else ls in
    let '(property, content) := meta_property_content t.(Attr) in
    let p := ls.(preview) in
    let prop := cleanStr property in
    if String.eqb prop "og:site_name" then Ok (set_preview ls (with_Name p content))
    else if String.eqb prop "og:title" then Ok (set_preview ls (with_Title p content))
    else if String.eqb prop "og:type" then Ok (set_preview ls (with_Type p content))
    else if String.eqb prop "og:description" then Ok (set_preview ls (with_Description p content))
    else if String.eqb prop "description" then
      if (String.length p.(Description) =? 0)%nat
      then Ok (set_preview ls (with_Description p content)) else Ok ls
    else if String.eqb prop "og:url" then Ok (set_preview ls (with_Link p content))
    else if String.eqb prop "og:image" then
      let ls := set_ogImage ls in
      u <-? Parse content ;;
      let u := if negb (IsAbs u)
               then set_scheme (set_host u sc.(Url).(Host)) sc.(Url).(Scheme) else u in
      Ok (set_preview ls (with_Images ls.(preview) [String_ u]))
    else Ok ls.

(** The loop over the attributes of an [img] tag. *)
Fixpoint img_attrs (sc : Scraper) (attrs : list Attribute) (images : list string)
  : result (list string) :=
  match attrs with
  | [] => Ok images
  | a :: rest =>
      if String.eqb (cleanStr a.(Key)) "src" then
        imgUrl <-? Parse a.(Val) ;;
        images' <-?
          (if negb (IsAbs imgUrl) then
             match imgUrl.(Path) with
             | EmptyString => Panic "runtime error: index out of range [0] with length 0"
             | String c _ =>
                 if Ascii.eqb c "/" then
                   Ok (app images [sc.(Url).(Scheme) ++ "://" ++ sc.(Url).(Host) ++ imgUrl.(Path)])
                 else
                   Ok (app images [sc.(Url).(Scheme) ++ "://" ++ sc.(Url).(Host) ++ "/" ++ imgUrl.(Path)])
             end
           else Ok (app images [a.(Val)])) ;;
        img_attrs sc rest images'
      else img_attrs sc rest images
  end.

(** The [switch token.Data] for every tag but [title]. *)
Definition handle_tag (sc : Scraper) (link : string) (tt : TokenType) (t : Token)
           (ls : ScanState) : result ScanState :=
  let d := t.(Data) in
  if String.eqb d "head" then
    Ok (match tt with EndTagToken => set_headPassed ls | _ => ls end)
  else if String.eqb d "body" then Ok (set_headPassed ls)
  else if String.eqb d "link" then link_attrs link t.(Attr) false false "" ls
  else if String.eqb d "meta" then handle_meta sc t ls
  else if String.eqb d "img" then
    imgs <-? img_attrs sc t.(Attr) ls.(preview).(Images) ;;
    Ok (set_preview ls (with_Images ls.(preview) imgs))
  else Ok ls.

(** The [title] case, given the [Data] of the token it consumes. *)
Definition title_set (ls : ScanState) (data : string) : ScanState :=
  if (String.length ls.(preview).(Title) =? 0)%nat
  then set_preview ls (with_Title ls.(preview) data) else ls.

Definition is_tag (tt : TokenType) : bool :=
  match tt with SelfClosingTagToken | StartTagToken | EndTagToken => true | _ => false end.

(** How a scan of one document ends. *)
Inductive scan_end :=
| Done (p : DocumentPreview)
| CanonicalRedirect (u : url)
| FragmentRedirect.

(** The checks at the end of the loop body. *)
Definition decide (sc : Scraper) (ls : ScanState) : option (result scan_end) :=
  if ls.(hasCanonical) && ls.(headPassed) && (0 <? sc.(MaxRedirect))%Z then
    Some (match ls.(canonicalUrl) with
          | Some u => Ok (CanonicalRedirect u)
          | None => Panic "invalid memory address or nil pointer dereference"
          end)
  else if ls.(hasFragment) && ls.(headPassed) && (0 <? sc.(MaxRedirect))%Z then
    Some (Ok FragmentRedirect)
  else if (0 <? String.length ls.(preview).(Title))%nat
          && (0 <? String.length ls.(preview).(Description))%nat
          && ls.(ogImage) && ls.(headPassed) then
    Some (Ok (Done ls.(preview)))
  else None.

Definition after (sc : Scraper) (ls : ScanState) (k : ScanState -> result scan_end)
  : result scan_end :=
  match decide sc ls with Some r => r | None => k ls end.

(** The token loop of [parseDocument]. *)
Fixpoint scan (sc : Scraper) (link : string) (ts : list Token) (ls : ScanState) {struct ts}
  : result scan_end :=
  match ts with
  | [] => Ok (Done ls.(preview))
  | t :: ts1 =>
      if negb (is_tag t.(TType)) then scan sc link ts1 ls
      else if String.eqb t.(Data) "title" then
        match t.(TType) with
        | StartTagToken =>
            match ts1 with
            | [] => after sc (title_set ls "") (fun ls' => Ok (Done ls'.(preview)))
            | t2 :: ts2 => after sc (title_set ls t2.(Data)) (scan sc link ts2)
            end
        | _ => after sc ls (scan sc link ts1)
        end
      else
        match handle_tag sc link t.(TType) t ls with
        | Ok ls' => after sc ls' (scan sc link ts1)
        | Err e => Err e
        | Panic m => Panic m
        end
  end.

(** The state before the loop. *)
Definition scan_init (sc : Scraper) (doc : Document) : ScanState :=
  let p := doc.(Preview) in
  let p := with_Images p [] in
  let p := with_Name p sc.(Url).(Host) in
  let p := with_Icon p (sc.(Url).(Scheme) ++ "://" ++ sc.(Url).(Host) ++ "/favicon.ico") in
  mkScan false false false false None p.

(** [parseDocument]; [fuel] bounds the redirect recursion, which the code
    bounds by [MaxRedirect] (see [parseDocument]). *)
Fixpoint parseDocument_fuel (fuel : nat) (T : Transport) (doc : Document) : M Document :=
  fun sc =>
  match scan sc doc.(Preview).(Link) doc.(Body) (scan_init sc doc) with
  | Err e => (sc, Err e)
  | Panic m => (sc, Panic m)
  | Ok (Done p) =>
      (sc, Ok (mkDocument doc.(Body) p doc.(ContentType)))
  | Ok (CanonicalRedirect cu) =>
      match fuel with
      | O => (sc, Err OutOfFuel)
      | S f =>
          let abs := if IsAbs cu then Ok cu
                     else Parse (sc.(Url).(Scheme) ++ "://" ++ sc.(Url).(Host) ++ cu.(Path)) in
          match abs with
          | Err e => (sc, Err e)
          | Panic m => (sc, Panic m)
          | Ok cu' =>
              let sc1 := set_EscapedFragmentUrl (set_Url sc cu') None in
              match getDocument T sc1 with
              | (sc2, Ok fdoc) => parseDocument_fuel f T fdoc sc2
              | (sc2, Err e) => (sc2, Err e)
              | (sc2, Panic m) => (sc2, Panic m)
              end
          end
      end
  | Ok FragmentRedirect =>
      match fuel with
      | O => (sc, Err OutOfFuel)
      | S f =>
          let sc1 := fst (toFragmentUrl sc) in
          match getDocument T sc1 with
          | (sc2, Ok fdoc) => parseDocument_fuel f T fdoc sc2
          | (sc2, Err e) => (sc2, Err e)
          | (sc2, Panic m) => (sc2, Panic m)
          end
      end
  end.

(** Every redirect needs [MaxRedirect > 0] and costs one [getDocument],
    which lowers [MaxRedirect] by one: [Z.to_nat MaxRedirect] redirects at
    most, so this fuel is never exhausted ([parseDocument_fuel_enough]). *)
Definition parseDocument (T : Transport) (doc : Document) : M Document :=
  fun sc => parseDocument_fuel (S (Z.to_nat sc.(MaxRedirect))) T doc sc.

(** The method [Scraper.Scrape]. *)
Definition Scraper_Scrape (T : Transport) : M Document := fun sc =>
  match getDocument T sc with
  | (sc1, Ok doc) => parseDocument T doc sc1
  | (sc1, Err e) => (sc1, Err e)
  | (sc1, Panic m) => (sc1, Panic m)
  end.

(** The function [Scrape]. *)
Definition Scrape (T : Transport) (uri : string) (maxRedirect : Z) (options : ScraperOptions)
  : result Document :=
  match Parse uri with
  | Ok u => snd (Scraper_Scrape T (mkScraper u None maxRedirect options))
  | Err e => Err e
  | Panic m => Panic m
  end.

(* ------------------------------------------------------------------ *)
(** ** Concrete pages and a transport to run the program on *)

Module Fixture.

Definition attrs (kv : list (string * string)) : list Attribute :=
  map (fun kv => mkAttr (fst kv) (snd kv)) kv.
Definition start_tag (n : string) (kv : list (string * string)) : Token :=
  mkToken StartTagToken n (attrs kv).
Definition end_tag (n : string) : Token := mkToken EndTagToken n [].
Definition text (s : string) : Token := mkToken TextToken s [].
Definition meta (k v : string) : Token := start_tag "meta" [("property", k); ("content", v)].

Definition url_of (s : string) : url := match Parse s with Ok u => u | _ => empty_url end.

Definition page_url : url := url_of "https://ex.com/p".

Definition scraper_at (u : url) (budget : Z) : Scraper :=
  mkScraper u None budget (mkOptions 0 "").

(** A fetched page at [u] with the given tokens, as [getDocument] builds it. *)
Definition page_at (u : url) (ts : list Token) : Document :=
  mkDocument ts (with_Link empty_preview (String_ u)) "text/html".

Definition page (ts : list Token) : Document := page_at page_url ts.

(** Every GET succeeds without transport redirects and serves a page
    titled [Other]; HEAD requests fail. *)
Definition transport : Transport :=
  mkTransport (fun _ _ => None)
    (fun _ u _ => match Parse u with
                  | Ok v => Ok (mkResponse v "text/html" [start_tag "title" []; text "Other"])
                  | _ => Err TransportError
                  end).

(** A transport whose every request fails. *)
Definition offline : Transport :=
  mkTransport (fun _ _ => None) (fun _ _ _ => Err TransportError).

Definition preview_of (r : result Document) : option DocumentPreview :=
  match r with Ok d => Some d.(Preview) | _ => None end.

End Fixture.

(* ------------------------------------------------------------------ *)
(** ** Two readings of the escaped-fragment token

    The loop of [toFragmentUrl] keeps, drops or escapes each rune of the
    payload.  [claimed_token] is the token with every byte of an escaped
    rune written as [%XX]; [form_token] writes an escaped space as [+] and
    every other byte as [%XX]. *)

Definition pct_byte (c : ascii) : string :=
  String "%" (String (hexdigit (ord c / 16)) (String (hexdigit (ord c mod 16)) EmptyString)).

Fixpoint pct_encode (s : string) : string :=
  match s with
  | EmptyString => EmptyString
  | String c r => pct_byte c ++ pct_encode r
  end.

Fixpoint form_encode (s : string) : string :=
  match s with
  | EmptyString => EmptyString
  | String c r => (if Ascii.eqb c " " then "+" else pct_byte c) ++ form_encode r
  end.

Fixpoint concat_str (l : list string) : string :=
  match l with
  | [] => EmptyString
  | s :: l' => s ++ concat_str l'
  end.

Definition token_char (enc : string -> string) (r : N) : string :=
  let b := (r mod 256)%N in
  if avoidByte b then EmptyString
  else if escapeByte b then enc (rune_string r)
  else rune_string r.

Definition claimed_token (payload : string) : string :=
  EscapedFragment_ ++ concat_str (map (token_char pct_encode) (runes payload)).

Definition form_token (payload : string) : string :=
  EscapedFragment_ ++ concat_str (map (token_char form_encode) (runes payload)).

(** Documents used by the statements below: a head with [og:title],
    [og:description] and [og:image], and an [img] tag. *)



(* ------------------------------------------------------------------ *)
(** ** [ScrapeBuilder] and the [ScrapeService] methods *)

Record scrapeSettings := mkSettings {
  userAgent : string;
  maxDocumentLength : Z;
  url_ : string;
  maxRedirect : Z
}.

Record scrapeBuilder := mkBuilder { settings : scrapeSettings }.

(** [NewScrapeBuilder] *)
Definition NewScrapeBuilder : scrapeBuilder :=
  mkBuilder (mkSettings "GoScraper" 0 "" 0).

(** The setters; each one returns the builder it was called on. *)
Definition SetUrl (b : scrapeBuilder) (s : string) : scrapeBuilder :=
  let st := b.(settings) in
  mkBuilder (mkSettings st.(userAgent) st.(maxDocumentLength) s st.(maxRedirect)).
Definition SetMaxRedirect (b : scrapeBuilder) (i : Z) : scrapeBuilder :=
  let st := b.(settings) in
  mkBuilder (mkSettings st.(userAgent) st.(maxDocumentLength) st.(url_) i).
Definition SetMaxDocumentLength (b : scrapeBuilder) (n : Z) : scrapeBuilder :=
  let st := b.(settings) in
  mkBuilder (mkSettings st.(userAgent) n st.(url_) st.(maxRedirect)).
Definition SetUserAgent (b : scrapeBuilder) (s : string) : scrapeBuilder :=
  let st := b.(settings) in
  mkBuilder (mkSettings s st.(maxDocumentLength) st.(url_) st.(maxRedirect)).

(** [scrapeBuilder.Build] *)
Definition Build (b : scrapeBuilder) : result Scraper :=
  u <-? Parse b.(settings).(url_) ;;
  Ok (mkScraper u None b.(settings).(maxRedirect)
        (mkOptions b.(settings).(maxDocumentLength) b.(settings).(userAgent))).

(** The exported methods [GetDocument] and [ParseDocument]. *)
Definition GetDocument (T : Transport) : M Document := getDocument T.
Definition ParseDocument (T : Transport) (doc : Document) : M Document := parseDocument T doc.

(** A scraper with another [UserAgent] option. *)
Definition with_UserAgent (sc : Scraper) (a : string) : Scraper :=
  mkScraper sc.(Url) sc.(EscapedFragmentUrl) sc.(MaxRedirect)
            (mkOptions sc.(Options).(MaxDocumentLength) a).

(** How a scan of [ts] can end in [r] with loop state [ls]: at the end of
    the tokens, by a decision at the end of a loop body, or by an error in
    the case of one of the tags of [ts]. *)
Definition scan_outcome (sc : Scraper) (link : string) (ts : list Token)
           (ls : ScanState) (r : result scan_end) : Prop :=
  r = Ok (Done ls.(preview)) \/ decide sc ls = Some r \/
  exists t, In t ts /\ is_tag (TType t) = true /\ String.eqb (Data t) "title" = false /\
    match handle_tag sc link (TType t) t ls with
    | Ok _ => False
    | Err e => r = Err e
    | Panic m => r = Panic m
    end.


(* ------------------------------------------------------------------ *)
(** ** The earlier variant of the package ([goscraper.go])

    The same scraper without options, site name, type, icon, HEAD request
    or charset conversion.  Tokens, URLs and the helpers [cleanStr],
    [metaFragment], [avoidByte] and [escapeByte] are those above (the file
    has the same code for them). *)

Module Legacy.

Record DocumentPreview := mkPreview {
  Title : string;
  Description : string;
  Images : list string;
  Link : string
}.

Record Document := mkDocument {
  Body : list Token;
  Preview : DocumentPreview
}.

Record Scraper := mkScraper {
  Url : url;
  EscapedFragmentUrl : option url;
  MaxRedirect : Z
}.

Definition set_Url (sc : Scraper) (u : url) : Scraper :=
  mkScraper u sc.(EscapedFragmentUrl) sc.(MaxRedirect).
Definition set_EscapedFragmentUrl (sc : Scraper) (u : option url) : Scraper :=
  mkScraper sc.(Url) u sc.(MaxRedirect).
Definition set_MaxRedirect (sc : Scraper) (n : Z) : Scraper :=
  mkScraper sc.(Url) sc.(EscapedFragmentUrl) n.

Definition M (A : Type) : Type := Scraper -> Scraper * result A.

(** The GET request: [get u] is the response to a request for [u] with the
    header [User-Agent: GoScraper], its body read with [io.Copy] and
    tokenized; a failure of the request or of the read is an [Err]. *)
Record Transport := mkTransport { get : string -> result Response }.

(** [getUrl] *)
Definition getUrl (sc : Scraper) : string :=
  match sc.(EscapedFragmentUrl) with
  | Some u => String_ u
  | None => String_ sc.(Url)
  end.

(** [toFragmentUrl] *)
Definition toFragmentUrl : M unit := fun sc =>
  match QueryUnescape (String_ sc.(Url)) with
  | Err e => (sc, Err e)
  | Panic m => (sc, Panic m)
  | Ok unescapedurl =>
      let p := if query_nonempty sc.(Url) then "&" else "?" in
      let target :=
        match fragmentMatch unescapedurl with
        | Some (m0, m1) => replace1 unescapedurl m0 (p ++ escaped_fragment_of m1)
        | None => unescapedurl ++ p ++ EscapedFragment_
        end in
      match Parse target with
      | Ok fragmentUrl => (set_EscapedFragmentUrl sc (Some fragmentUrl), Ok tt)
      | Err e => (sc, Err e)
      | Panic m => (sc, Panic m)
      end
  end.

(** [getDocument] *)
Definition getDocument (T : Transport) : M Document := fun sc0 =>
  let sc1 := set_MaxRedirect sc0 (sc0.(MaxRedirect) - 1) in
  let sc2 := if contains (String_ sc1.(Url)) "#!" then fst (toFragmentUrl sc1) else sc1 in
  let sc := if contains (String_ sc2.(Url)) EscapedFragment_
            then set_EscapedFragmentUrl sc2 (Some sc2.(Url)) else sc2 in
  match Parse (getUrl sc) with
  | Err e => (sc, Err e)
  | Panic m => (sc, Panic m)
  | Ok _ =>
      match T.(get) (getUrl sc) with
      | Err e => (sc, Err e)
      | Panic m => (sc, Panic m)
      | Ok resp =>
          let sc' := if negb (String.eqb (String_ resp.(RequestURL)) (getUrl sc))
                     then set_Url (set_EscapedFragmentUrl sc None) resp.(RequestURL)
                     else sc in
          (sc', Ok (mkDocument resp.(RespBody) (mkPreview "" "" [] (String_ sc'.(Url)))))
      end
  end.

Record ScanState := mkScan {
  ogImage : bool;
  headPassed : bool;
  hasFragment : bool;
  hasCanonical : bool;
  canonicalUrl : option url;
  preview : DocumentPreview
}.

Definition set_preview (ls : ScanState) (p : DocumentPreview) : ScanState :=
  mkScan ls.(ogImage) ls.(headPassed) ls.(hasFragment) ls.(hasCanonical) ls.(canonicalUrl) p.
Definition set_headPassed (ls : ScanState) : ScanState :=
  mkScan ls.(ogImage) true ls.(hasFragment) ls.(hasCanonical) ls.(canonicalUrl) ls.(preview).
Definition set_hasFragment (ls : ScanState) : ScanState :=
  mkScan ls.(ogImage) ls.(headPassed) true ls.(hasCanonical) ls.(canonicalUrl) ls.(preview).
Definition set_canonical (ls : ScanState) (u : url) : ScanState :=
  mkScan ls.(ogImage) ls.(headPassed) ls.(hasFragment) true (Some u) ls.(preview).
Definition set_ogImage (ls : ScanState) : ScanState :=
  mkScan true ls.(headPassed) ls.(hasFragment) ls.(hasCanonical) ls.(canonicalUrl) ls.(preview).

Definition with_Title p v := mkPreview v p.(Description) p.(Images) p.(Link).
Definition with_Description p v := mkPreview p.(Title) v p.(Images) p.(Link).
Definition with_Images p v := mkPreview p.(Title) p.(Description) v p.(Link).
Definition with_Link p v := mkPreview p.(Title) p.(Description) p.(Images) v.

(** The loop over the attributes of a [link] tag, with its locals
    [canonical] and [href]. *)
Fixpoint link_attrs (link : string) (attrs : list Attribute)
         (canonical : bool) (href : string) (ls : ScanState) : result ScanState :=
  match attrs with
  | [] => Ok ls
  | a :: rest =>
      let canonical := canonical || (String.eqb (cleanStr a.(Key)) "rel"
                                      && String.eqb (cleanStr a.(Val)) "canonical") in
      let href := if String.eqb (cleanStr a.(Key)) "href" then a.(Val) else href in
      ls1 <-? (if (0 <? String.length href)%nat && canonical && negb (String.eqb link href)
               then cu <-? Parse href ;; Ok (set_canonical ls cu)
               else Ok ls) ;;
      link_attrs link rest canonical href ls1
  end.

(** The [meta] case (it cannot fail). *)
Definition handle_meta (sc : Scraper) (t : Token) (ls : ScanState) : ScanState :=
  if negb (List.length t.(Attr) =? 2)%nat then ls
  else
    let ls := if metaFragment t && (match sc.(EscapedFragmentUrl) with None => true | Some _ => false end)
              then set_hasFragment ls else ls in
    let '(property, content) := meta_property_content t.(Attr) in
    let p := ls.(preview) in
    let prop := cleanStr property in
    if String.eqb prop "og:title" then set_preview ls (with_Title p content)
    else if String.eqb prop "og:description" then set_preview ls (with_Description p content)
    else if String.eqb prop "description" then
      if (String.length p.(Description) =? 0)%nat
      then set_preview ls (with_Description p content) else ls
    else if String.eqb prop "og:url" then set_preview ls (with_Link p content)
    else if String.eqb prop "og:image" then
      let ls := set_ogImage ls in
      set_preview ls (with_Images ls.(preview) [content])
    else ls.

(** The loop over the attributes of an [img] tag. *)
Fixpoint img_attrs (sc : Scraper) (attrs : list Attribute) (images : list string)
  : result (list string) :=
  match attrs with
  | [] => Ok images
  | a :: rest =>
      if String.eqb (cleanStr a.(Key)) "src" then
        imgUrl <-? Parse a.(Val) ;;
        let images' :=
          if negb (IsAbs imgUrl)
          then app images [sc.(Url).(Scheme) ++ "://" ++ sc.(Url).(Host) ++ imgUrl.(Path)]
          else app images [a.(Val)] in
        img_attrs sc rest images'
      else img_attrs sc rest images
  end.

(** The [switch token.Data] for every tag but [title]. *)
Definition handle_tag (sc : Scraper) (link : string) (tt : TokenType) (t : Token)
           (ls : ScanState) : result ScanState :=
  let d := t.(Data) in
  if String.eqb d "head" then
    Ok (match tt with EndTagToken => set_headPassed ls | _ => ls end)
  else if String.eqb d "body" then Ok (set_headPassed ls)
  else if String.eqb d "link" then link_attrs link t.(Attr) false "" ls
  else if String.eqb d "meta" then Ok (handle_meta sc t ls)
  else if String.eqb d "img" then
    imgs <-? img_attrs sc t.(Attr) ls.(preview).(Images) ;;
    Ok (set_preview ls (with_Images ls.(preview) imgs))
  else Ok ls.

(** The [title] case, given the [Data] of the token it consumes. *)
Definition title_set (ls : ScanState) (data : string) : ScanState :=
  if (String.length ls.(preview).(Title) =? 0)%nat
  then set_preview ls (with_Title ls.(preview) data) else ls.

Inductive scan_end :=
| Done (p : DocumentPreview)
| CanonicalRedirect (u : url)
| FragmentRedirect.

(** The checks at the end of the loop body; a canonical redirect with a
    nil [canonicalUrl] would dereference it in [getDocument]. *)
Definition decide (sc : Scraper) (ls : ScanState) : option (result scan_end) :=
  if ls.(hasCanonical) && ls.(headPassed) && (0 <? sc.(MaxRedirect))%Z then
    Some (match ls.(canonicalUrl) with
          | Some u => Ok (CanonicalRedirect u)
          | None => Panic "invalid memory address or nil pointer dereference"
          end)
  else if ls.(hasFragment) && ls.(headPassed) && (0 <? sc.(MaxRedirect))%Z then
    Some (Ok FragmentRedirect)
  else if (0 <? String.length ls.(preview).(Title))%nat
          && (0 <? String.length ls.(preview).(Description))%nat
          && (0 <? String.length ls.(preview).(Title))%nat
          && ls.(ogImage) && ls.(headPassed) then
    Some (Ok (Done ls.(preview)))
  else None.

Definition after (sc : Scraper) (ls : ScanState) (k : ScanState -> result scan_end)
  : result scan_end :=
  match decide sc ls with Some r => r | None => k ls end.

(** The token loop of [parseDocument]. *)
Fixpoint scan (sc : Scraper) (link : string) (ts : list Token) (ls : ScanState) {struct ts}
  : result scan_end :=
  match ts with
  | [] => Ok (Done ls.(preview))
  | t :: ts1 =>
      if negb (is_tag t.(TType)) then scan sc link ts1 ls
      else if String.eqb t.(Data) "title" then
        match t.(TType) with
        | StartTagToken =>
            match ts1 with
            | [] => after sc (title_set ls "") (fun ls' => Ok (Done ls'.(preview)))
            | t2 :: ts2 => after sc (title_set ls t2.(Data)) (scan sc link ts2)
            end
        | _ => after sc ls (scan sc link ts1)
        end
      else
        match handle_tag sc link t.(TType) t ls with
        | Ok ls' => after sc ls' (scan sc link ts1)
        | Err e => Err e
        | Panic m => Panic m
        end
  end.

Definition scan_init (doc : Document) : ScanState :=
  mkScan false false false false None (with_Images doc.(Preview) []).

(** [parseDocument], with the redirect recursion bounded by [fuel] as for
    the current variant ([parseDocument_fuel_enough_legacy]). *)
Fixpoint parseDocument_fuel (fuel : nat) (T : Transport) (doc : Document) : M Document :=
  fun sc =>
  match scan sc doc.(Preview).(Link) doc.(Body) (scan_init doc) with
  | Err e => (sc, Err e)
  | Panic m => (sc, Panic m)
  | Ok (Done p) => (sc, Ok (mkDocument doc.(Body) p))
  | Ok (CanonicalRedirect cu) =>
      match fuel with
      | O => (sc, Err OutOfFuel)
      | S f =>
          let sc1 := set_EscapedFragmentUrl (set_Url sc cu) None in
          match getDocument T sc1 with
          | (sc2, Ok fdoc) => parseDocument_fuel f T fdoc sc2
          | (sc2, Err e) => (sc2, Err e)
          | (sc2, Panic m) => (sc2, Panic m)
          end
      end
  | Ok FragmentRedirect =>
      match fuel with
      | O => (sc, Err OutOfFuel)
      | S f =>
          let sc1 := fst (toFragmentUrl sc) in
          match getDocument T sc1 with
          | (sc2, Ok fdoc) => parseDocument_fuel f T fdoc sc2
          | (sc2, Err e) => (sc2, Err e)
          | (sc2, Panic m) => (sc2, Panic m)
          end
      end
  end.

Definition parseDocument (T : Transport) (doc : Document) : M Document :=
  fun sc => parseDocument_fuel (S (Z.to_nat sc.(MaxRedirect))) T doc sc.

(** The method [Scraper.Scrape]. *)
Definition Scraper_Scrape (T : Transport) : M Document := fun sc =>
  match getDocument T sc with
  | (sc1, Ok doc) => parseDocument T doc sc1
  | (sc1, Err e) => (sc1, Err e)
  | (sc1, Panic m) => (sc1, Panic m)
  end.

(** The function [Scrape]. *)
Definition Scrape (T : Transport) (uri : string) (maxRedirect : Z) : result Document :=
  match Parse uri with
  | Ok u => snd (Scraper_Scrape T (mkScraper u None maxRedirect))
  | Err e => Err e
  | Panic m => Panic m
  end.

End Legacy.
(* ================================================================== *)
(** * Properties *)

(** ** The redirect budget *)

Definition is_redirect (r : scan_end) : bool :=
  match r with Done _ => false | _ => true end.

Lemma decide_redirect_budget : forall sc ls r,
  decide sc ls = Some (Ok r) -> is_redirect r = true -> (0 < sc.(MaxRedirect))%Z.
Proof.
  intros sc ls r H Hr. unfold decide in H.
  destruct (hasCanonical ls && headPassed ls && (0 <? MaxRedirect sc)%Z) eqn:E1.
  - apply andb_true_iff in E1 as [_ E1]. now apply Z.ltb_lt.
  - destruct (hasFragment ls && headPassed ls && (0 <? MaxRedirect sc)%Z) eqn:E2.
    + apply andb_true_iff in E2 as [_ E2]. now apply Z.ltb_lt.
    + destruct (_ && _ && ogImage ls && headPassed ls); inversion H; subst; discriminate.
Qed.

Lemma after_redirect : forall sc ls k r,
  after sc ls k = Ok r -> is_redirect r = true ->
  (0 < sc.(MaxRedirect))%Z \/ k ls = Ok r.
Proof.
  intros sc ls k r H Hr. unfold after in H.
  destruct (decide sc ls) as [o|] eqn:E.
  - left. subst o. eapply decide_redirect_budget; eauto.
  - right. exact H.
Qed.

Lemma scan_redirect_budget_len : forall n sc link ts ls r,
  (List.length ts <= n)%nat ->
  scan sc link ts ls = Ok r -> is_redirect r = true -> (0 < sc.(MaxRedirect))%Z.
Proof.
  induction n as [|n IH]; intros sc link ts ls r Hlen H Hr.
  - destruct ts; [|simpl in Hlen; lia]. simpl in H. inversion H; subst. discriminate.
  - destruct ts as [|t ts1]; simpl in H.
    + inversion H; subst; discriminate.
    + simpl in Hlen.
      destruct (negb (is_tag (TType t))).
      { eapply IH; eauto; lia. }
      destruct (String.eqb (Data t) "title").
      * destruct (TType t).
        all: try (destruct (after_redirect _ _ _ _ H Hr) as [?|Hk]; [assumption|];
                  eapply IH; [|exact Hk|exact Hr]; lia).
        destruct ts1 as [|t2 ts2].
        -- destruct (after_redirect _ _ _ _ H Hr) as [?|Hk]; [assumption|].
           inversion Hk; subst; discriminate.
        -- destruct (after_redirect _ _ _ _ H Hr) as [?|Hk]; [assumption|].
           eapply IH; [|exact Hk|exact Hr]. simpl in Hlen. lia.
      * destruct (handle_tag sc link (TType t) t ls) as [ls'| |]; try discriminate.
        destruct (after_redirect _ _ _ _ H Hr) as [?|Hk]; [assumption|].
        eapply IH; [|exact Hk|exact Hr]; lia.
Qed.

(** A scan can only end in a redirect when the budget is positive. *)
Lemma scan_redirect_budget : forall sc link ts ls r,
  scan sc link ts ls = Ok r -> is_redirect r = true -> (0 < sc.(MaxRedirect))%Z.
Proof. intros. eapply scan_redirect_budget_len; eauto. Qed.

Lemma toFragmentUrl_MaxRedirect : forall sc,
  (fst (toFragmentUrl sc)).(MaxRedirect) = sc.(MaxRedirect).
Proof.
  intros sc. unfold toFragmentUrl.
  destruct (QueryUnescape (String_ (Url sc))) as [u| |]; simpl; try reflexivity.
  destruct (Parse _); reflexivity.
Qed.

(** [getDocument] lowers the budget by exactly one, whatever happens. *)
Lemma getDocument_MaxRedirect : forall T sc,
  (fst (getDocument T sc)).(MaxRedirect) = (sc.(MaxRedirect) - 1)%Z.
Proof.
  intros T sc. unfold getDocument.
  set (sc1 := set_MaxRedirect sc (MaxRedirect sc - 1)).
  set (sc2 := if contains (String_ (Url sc1)) "#!" then fst (toFragmentUrl sc1) else sc1).
  assert (H2 : MaxRedirect sc2 = (MaxRedirect sc - 1)%Z).
  { unfold sc2. destruct (contains _ _); [rewrite toFragmentUrl_MaxRedirect|]; reflexivity. }
  clearbody sc2.
  set (sc3 := if contains (String_ (Url sc2)) EscapedFragment_
              then set_EscapedFragmentUrl sc2 (Some (Url sc2)) else sc2).
  assert (H3 : MaxRedirect sc3 = (MaxRedirect sc - 1)%Z).
  { unfold sc3. destruct (contains _ _); simpl; exact H2. }
  clearbody sc3. cbv zeta.
  repeat match goal with
         | |- context [match ?x with _ => _ end] => destruct x
         end; simpl; exact H3.
Qed.



(** The fuel of [parseDocument] is enough: any fuel above the budget
    gives the same run. *)
Lemma parseDocument_fuel_enough : forall n m T doc sc,
  (Z.to_nat sc.(MaxRedirect) < n)%nat -> (Z.to_nat sc.(MaxRedirect) < m)%nat ->
  parseDocument_fuel n T doc sc = parseDocument_fuel m T doc sc.
Proof.
  induction n as [|f IH]; intros m T doc sc Hn Hm; [lia|].
  destruct m as [|g]; [lia|]. simpl.
  destruct (scan sc (Link (Preview doc)) (Body doc) (scan_init sc doc)) as [[p|cu|]| |] eqn:Hs;
    try reflexivity.
  - pose proof (scan_redirect_budget _ _ _ _ _ Hs eq_refl) as Hb.
    destruct (if IsAbs cu then _ else _) as [cu'| |]; try reflexivity.
    pose proof (getDocument_MaxRedirect T (set_EscapedFragmentUrl (set_Url sc cu') None)) as HG.
    destruct (getDocument T _) as [sc2 [fdoc| |]]; try reflexivity.
    simpl in HG. apply IH; rewrite HG; lia.
  - pose proof (scan_redirect_budget _ _ _ _ _ Hs eq_refl) as Hb.
    pose proof (getDocument_MaxRedirect T (fst (toFragmentUrl sc))) as HG.
    rewrite toFragmentUrl_MaxRedirect in HG.
    destruct (getDocument T _) as [sc2 [fdoc| |]]; try reflexivity.
    simpl in HG. apply IH; rewrite HG; lia.
Qed.


(** ** C3 *)



(** ** The [title] and [og:title] writers *)

Lemma title_set_empty : forall ls d,
  String.length ls.(preview).(Title) = 0%nat -> (title_set ls d).(preview).(Title) = d.
Proof. intros ls d H. unfold title_set. rewrite H. reflexivity. Qed.

Lemma title_set_nonempty : forall ls d,
  String.length ls.(preview).(Title) <> 0%nat -> title_set ls d = ls.
Proof.
  intros ls d H. unfold title_set.
  destruct (String.length (Title (preview ls)) =? 0)%nat eqn:E; [|reflexivity].
  apply Nat.eqb_eq in E. contradiction.
Qed.

Lemma scan_title_start : forall sc link t t2 ts ls,
  t.(TType) = StartTagToken -> t.(Data) = "title" ->
  scan sc link (t :: t2 :: ts) ls = after sc (title_set ls t2.(Data)) (scan sc link ts).
Proof. intros sc link t t2 ts ls HT HD. simpl. rewrite HT, HD. reflexivity. Qed.

Lemma scan_title_start_last : forall sc link t ls,
  t.(TType) = StartTagToken -> t.(Data) = "title" ->
  scan sc link [t] ls = after sc (title_set ls "") (fun ls' => Ok (Done ls'.(preview))).
Proof. intros sc link t ls HT HD. simpl. rewrite HT, HD. reflexivity. Qed.


(** ** C10 *)

(** C10: a [title] start tag consumes the next token whatever its kind
    and, when the title is still empty, stores that token's [Data] (the
    empty string when the stream has ended); so [<title></title>], whose
    next token is the [title] end tag, gives the title ["title"]. *)
Theorem C10_title_takes_next_token_data :
  (forall sc link t t2 ts ls,
     t.(TType) = StartTagToken -> t.(Data) = "title" ->
     scan sc link (t :: t2 :: ts) ls = after sc (title_set ls t2.(Data)) (scan sc link ts)) /\
  (forall sc link t ls,
     t.(TType) = StartTagToken -> t.(Data) = "title" ->
     scan sc link [t] ls = after sc (title_set ls "") (fun ls' => Ok (Done ls'.(preview)))) /\
  (forall ls d, String.length ls.(preview).(Title) = 0%nat -> (title_set ls d).(preview).(Title) = d) /\
  (forall ls d, String.length ls.(preview).(Title) <> 0%nat -> title_set ls d = ls) /\
  option_map Title (Fixture.preview_of (snd (parseDocument Fixture.transport
     (Fixture.page [Fixture.start_tag "title" []; Fixture.end_tag "title"])
     (Fixture.scraper_at Fixture.page_url 3)))) = Some "title".
Proof.
  split; [exact scan_title_start|].
  split; [exact scan_title_start_last|].
  split; [exact title_set_empty|].
  split; [exact title_set_nonempty|].
  vm_compute. reflexivity.
Qed.

Lemma C10_witness :
  let t := Fixture.start_tag "title" [] in
  let t2 := Fixture.end_tag "title" in
  let sc := Fixture.scraper_at Fixture.page_url 3 in
  let ls := scan_init sc (Fixture.page [t; t2]) in
  t.(TType) = StartTagToken /\ t.(Data) = "title" /\
  String.length ls.(preview).(Title) = 0%nat /\
  scan sc "" [t; t2] ls = after sc (title_set ls t2.(Data)) (scan sc "" []) /\
  (title_set ls t2.(Data)).(preview).(Title) = "title".
Proof.
  intros t t2 sc ls.
  assert (HT : t.(TType) = StartTagToken) by reflexivity.
  assert (HD : t.(Data) = "title") by reflexivity.
  assert (HL : String.length ls.(preview).(Title) = 0%nat) by reflexivity.
  destruct C10_title_takes_next_token_data as [H1 [_ [H3 _]]].
  split; [exact HT|]. split; [exact HD|]. split; [exact HL|].
  split; [apply (H1 sc "" t t2 [] ls HT HD)|].
  apply (H3 ls t2.(Data) HL).
Defined.

(** ** C1 *)




(** ** C2 *)






(** ** Images *)





(** ** C4 *)




(** ** C5 and C9: an [img] whose relative URL has an empty path *)

(** C5: [?q=1], [#frag] and the empty string parse as relative URLs with an
    empty path; [<img src=...>] with any of them makes [parseDocument] read
    [imgUrl.Path[0]] out of range and panic. *)
Theorem C5_img_empty_path_panics :
  let run v := snd (parseDocument Fixture.transport
                      (Fixture.page [Fixture.start_tag "img" [("src", v)]])
                      (Fixture.scraper_at Fixture.page_url 3)) in
  let oob := "runtime error: index out of range [0] with length 0" in
  Parse "?q=1" = Ok (Fixture.url_of "?q=1") /\ IsAbs (Fixture.url_of "?q=1") = false /\
  (Fixture.url_of "?q=1").(Path) = "" /\ run "?q=1" = Panic oob /\
  Parse "#frag" = Ok (Fixture.url_of "#frag") /\ IsAbs (Fixture.url_of "#frag") = false /\
  (Fixture.url_of "#frag").(Path) = "" /\ run "#frag" = Panic oob /\
  Parse "" = Ok (Fixture.url_of "") /\ IsAbs (Fixture.url_of "") = false /\
  (Fixture.url_of "").(Path) = "" /\ run "" = Panic oob.
Proof. vm_compute. repeat split. Qed.

(** C9: the three ways an [img src] becomes an image URL, at the page
    [https://ex.com/p]; and the relative [?q=1], whose path is empty and
    does not start with [/], panics instead of giving [https://ex.com/]. *)
Theorem C9_img_url_resolution :
  let run v := snd (parseDocument Fixture.transport
                      (Fixture.page [Fixture.start_tag "img" [("src", v)]])
                      (Fixture.scraper_at Fixture.page_url 3)) in
  option_map Images (Fixture.preview_of (run "/a.png")) = Some ["https://ex.com/a.png"] /\
  option_map Images (Fixture.preview_of (run "https://cdn.x/y.png")) = Some ["https://cdn.x/y.png"] /\
  option_map Images (Fixture.preview_of (run "b.png")) = Some ["https://ex.com/b.png"] /\
  run "?q=1" = Panic "runtime error: index out of range [0] with length 0".
Proof. vm_compute. repeat split. Qed.

(** ** C8: the icon *)

(** C8: [<link rel="icon" href="/favicon.png">] at [https://ex.com/p] sets the
    icon to the relative [/favicon.png] as written, where [og:image] and
    [img] resolve a relative URL against the page. *)
Theorem C8_icon_href_kept_relative :
  option_map Icon (Fixture.preview_of (snd (parseDocument Fixture.transport
     (Fixture.page [Fixture.start_tag "link" [("rel", "icon"); ("href", "/favicon.png")]])
     (Fixture.scraper_at Fixture.page_url 3)))) = Some "/favicon.png" /\
  option_map Images (Fixture.preview_of (snd (parseDocument Fixture.transport
     (Fixture.page [Fixture.meta "og:image" "/favicon.png"])
     (Fixture.scraper_at Fixture.page_url 3)))) = Some ["https://ex.com/favicon.png"].
Proof. vm_compute. split; reflexivity. Qed.

(** ** C7: a percent-decoding failure in the fragment rewrite *)

(** C7: [http://a.com/?q=%zz#!x] parses, its string contains [#!], and
    [toFragmentUrl] fails on it with the decoding error; [getDocument]
    drops that error and [Scrape] returns a preview of the page. *)
Theorem C7_decode_error_dropped :
  let uri := "http://a.com/?q=%zz#!x" in
  Parse uri = Ok (Fixture.url_of uri) /\
  String_ (Fixture.url_of uri) = uri /\
  snd (toFragmentUrl (Fixture.scraper_at (Fixture.url_of uri) 2)) = Err (EscapeError "%zz") /\
  Scrape Fixture.transport uri 3 (mkOptions 0 "")
  = Ok (mkDocument [Fixture.start_tag "title" []; Fixture.text "Other"]
          (mkPreview "http://a.com/favicon.ico" "a.com" "Other" "" "" [] uri) "text/html").
Proof. vm_compute. repeat split. Qed.

(** ** C6: the escaped-fragment token *)

Section FragmentToken.

Local Open Scope nat_scope.

Lemma str_app_nil : forall s, s ++ EmptyString = s.
Proof. induction s; simpl; congruence. Qed.

Lemma str_app_assoc : forall a b c, (a ++ b) ++ c = a ++ (b ++ c).
Proof. induction a; intros; simpl; congruence. Qed.

Lemma ord_byte : forall n, (n < 256)%N -> ord (byte n) = N.to_nat n.
Proof.
  intros n H. unfold ord, nat_of_ascii, byte. now rewrite N_ascii_embedding.
Qed.

Definition all_high (s : string) : Prop :=
  Forall (fun c => 128 <= ord c) (list_ascii_of_string s).

Lemma in_set_high : forall set c,
  forallb (fun d => (ord d <? 128)%nat) (list_ascii_of_string set) = true ->
  128 <= ord c -> in_set set c = false.
Proof.
  intros set c Hs Hc. unfold in_set.
  induction (list_ascii_of_string set) as [|d l IH]; simpl in *; auto.
  apply andb_true_iff in Hs as [Hd Hl].
  destruct (Ascii.eqb_spec c d) as [->|_]; simpl.
  - apply Nat.ltb_lt in Hd. lia.
  - auto.
Qed.

Lemma shouldEscape_high : forall c mode,
  is_host_mode mode = false -> 128 <= ord c -> shouldEscape c mode = true.
Proof.
  intros c mode Hm Hc. unfold shouldEscape.
  assert (is_alnum c = false) as ->.
  { unfold is_alnum, is_alpha, is_lower, is_upper, is_digit.
    assert ((ord c <=? 122) = false) as -> by (apply Nat.leb_gt; lia).
    assert ((ord c <=? 90) = false) as -> by (apply Nat.leb_gt; lia).
    assert ((ord c <=? 57) = false) as -> by (apply Nat.leb_gt; lia).
    now rewrite !andb_false_r. }
  rewrite Hm. simpl andb.
  rewrite (in_set_high "-_.~"), (in_set_high "$&+,/:;=?@"), (in_set_high "!()*");
    auto; try reflexivity.
  now destruct mode.
Qed.

Lemma not_space_high : forall c, 128 <= ord c -> Ascii.eqb c " " = false.
Proof.
  intros c Hc. destruct (Ascii.eqb_spec c " ") as [->|]; auto.
  vm_compute in Hc. lia.
Qed.

Lemma QueryEscape_high : forall s, all_high s -> QueryEscape s = form_encode s.
Proof.
  unfold QueryEscape, all_high. induction s as [|c r IH]; intros H; simpl; auto.
  inversion H as [|? ? Hc Hr]; subst.
  rewrite shouldEscape_high, not_space_high by auto. simpl.
  now rewrite IH.
Qed.

Lemma div_lt_bound : forall a d k, (d <> 0)%N -> (a < d * k)%N -> (a / d < k)%N.
Proof. intros a d k Hd H. apply N.Div0.div_lt_upper_bound; lia. Qed.

Lemma rune_string_high : forall r, (128 <= r)%N -> all_high (rune_string r).
Proof.
  intros r Hr. unfold rune_string, all_high.
  set (r' := (if ((55296 <=? r) && (r <=? 57343)) || (1114111 <? r) then RuneError else r)%N).
  assert (Hr' : (128 <= r' <= 1114111)%N).
  { subst r'. destruct (((55296 <=? r) && (r <=? 57343)) || (1114111 <? r))%N eqn:E.
    - unfold RuneError. lia.
    - apply orb_false_iff in E as [_ E]. apply N.ltb_ge in E. lia. }
  clearbody r'.
  assert (Hm : forall x, (x mod 64 < 64)%N) by (intros; apply N.mod_lt; lia).
  assert (Hb : forall n, (128 <= n < 256)%N -> 128 <= ord (byte n)).
  { intros n Hn. rewrite ord_byte by lia. lia. }
  assert (H1 : (r' < 2048 -> r' / 64 < 32)%N) by (intros; apply div_lt_bound; lia).
  assert (H2 : (r' < 65536 -> r' / 4096 < 16)%N) by (intros; apply div_lt_bound; lia).
  assert (H3 : (r' / 262144 < 5)%N) by (apply div_lt_bound; lia).
  pose proof (Hm r'). pose proof (Hm (r' / 64)%N). pose proof (Hm (r' / 4096)%N).
  set (q1 := (r' / 64)%N) in *. set (q2 := (r' / 4096)%N) in *.
  set (q3 := (r' / 262144)%N) in *. set (m0 := (r' mod 64)%N) in *.
  set (m1 := (q1 mod 64)%N) in *. set (m2 := (q2 mod 64)%N) in *.
  clearbody q1 q2 q3 m0 m1 m2.
  destruct (r' <? 128)%N eqn:E1; [apply N.ltb_lt in E1; lia|].
  destruct (r' <? 2048)%N eqn:E2; [|destruct (r' <? 65536)%N eqn:E3];
    repeat match goal with H : (_ <? _)%N = true |- _ => apply N.ltb_lt in H
                         | H : (_ <? _)%N = false |- _ => apply N.ltb_ge in H end;
    cbn [list_ascii_of_string]; repeat (apply Forall_cons; [apply Hb; lia|]); apply Forall_nil.
Qed.

(** The ASCII runes an escaped rune can be, checked one by one. *)
Lemma QueryEscape_ascii_check :
  forallb (fun k => let r := N.of_nat k in
             negb (escapeByte r) || avoidByte r
             || String.eqb (QueryEscape (rune_string r)) (form_encode (rune_string r)))
          (seq 0 128) = true.
Proof. vm_compute. reflexivity. Qed.

Lemma QueryEscape_rune : forall r,
  avoidByte (r mod 256)%N = false -> escapeByte (r mod 256)%N = true ->
  QueryEscape (rune_string r) = form_encode (rune_string r).
Proof.
  intros r Ha He.
  destruct (N.lt_ge_cases r 128) as [Hlt|Hge].
  - rewrite N.mod_small in Ha, He by lia.
    pose proof QueryEscape_ascii_check as Hc.
    rewrite forallb_forall in Hc.
    specialize (Hc (N.to_nat r)). cbv beta zeta in Hc.
    rewrite Nnat.N2Nat.id, He, Ha in Hc. cbn [negb orb] in Hc.
    apply String.eqb_eq, Hc, in_seq. lia.
  - now apply QueryEscape_high, rune_string_high.
Qed.

Lemma fragment_step_token : forall acc r,
  fragment_step acc r = acc ++ token_char form_encode r.
Proof.
  intros acc r. unfold fragment_step, token_char.
  destruct (avoidByte (r mod 256)%N) eqn:Ha; [now rewrite str_app_nil|].
  destruct (escapeByte (r mod 256)%N) eqn:He; auto.
  now rewrite QueryEscape_rune.
Qed.

Lemma fold_fragment_step : forall l acc,
  fold_left fragment_step l acc = acc ++ concat_str (map (token_char form_encode) l).
Proof.
  induction l as [|r l IH]; intros acc; simpl.
  - now rewrite str_app_nil.
  - rewrite IH, fragment_step_token. apply str_app_assoc.
Qed.

Lemma escaped_fragment_form_token : forall m, escaped_fragment_of m = form_token m.
Proof. intros m. apply fold_fragment_step. Qed.

(** Positions of the first hash-bang. *)

Lemma prefix_app_l : forall p q s, prefix (p ++ q) s = true -> prefix p s = true.
Proof.
  induction p as [|a p IH]; intros q s H; [now destruct s|].
  destruct s as [|b s]; simpl in *; [discriminate|].
  destruct (ascii_dec a b); eauto.
Qed.

Lemma prefix_app_same : forall p q s, prefix (p ++ q) (p ++ s) = prefix q s.
Proof.
  induction p as [|a p IH]; intros q s; simpl; auto.
  destruct (ascii_dec a a); [auto|congruence].
Qed.

Lemma substring_all : forall s, substring 0 (String.length s) s = s.
Proof. induction s; simpl; congruence. Qed.

Lemma drop_0 : forall s, drop 0 s = s.
Proof. intros s. unfold drop. rewrite Nat.sub_0_r. apply substring_all. Qed.

Lemma prefix_split : forall p s, prefix p s = true -> s = p ++ drop (String.length p) s.
Proof.
  unfold drop. induction p as [|a p IH]; intros s H.
  - cbn [String.length append]. rewrite Nat.sub_0_r. symmetry. apply substring_all.
  - destruct s as [|b s]; simpl in H; [discriminate|].
    destruct (ascii_dec a b) as [->|]; [|discriminate].
    simpl. f_equal. now apply IH.
Qed.

Lemma index_drop : forall u p i,
  index 0 p u = Some i -> drop i u = p ++ drop (i + String.length p) u.
Proof.
  induction u as [|b u IH]; intros p i H.
  - destruct p; simpl in H; inversion H; subst. reflexivity.
  - cbn [index] in H. destruct (prefix p (String b u)) eqn:Hp.
    + inversion H; subst. rewrite drop_0. now apply prefix_split.
    + destruct (index 0 p u) as [j|] eqn:Hj; inversion H; subst.
      unfold drop in *. simpl. apply IH, Hj.
Qed.

Lemma index_extend : forall u p q i,
  p <> EmptyString -> index 0 p u = Some i ->
  prefix (p ++ q) (drop i u) = true -> index 0 (p ++ q) u = Some i.
Proof.
  induction u as [|b u IH]; intros p q i Hne H Hpq.
  - destruct p; simpl in H; [congruence|discriminate].
  - cbn [index] in H |- *. destruct (prefix p (String b u)) eqn:Hp.
    + inversion H; subst. rewrite drop_0 in Hpq. now rewrite Hpq.
    + destruct (index 0 p u) as [j|] eqn:Hj; inversion H; subst.
      destruct (prefix (p ++ q) (String b u)) eqn:Hpq'.
      * apply prefix_app_l in Hpq'. congruence.
      * unfold drop in Hpq. simpl in Hpq. now rewrite (IH p q j).
Qed.

Lemma cut_prefix : forall s c, prefix (fst (fst (cut s c))) s = true.
Proof.
  induction s as [|d s IH]; intros c; simpl; auto.
  destruct (Ascii.eqb d c); simpl; auto.
  specialize (IH c). destruct (cut s c) as [[b a] f]. simpl in *.
  destruct (ascii_dec d d); [auto|congruence].
Qed.

Lemma replace_hashbang : forall u i new,
  index 0 "#!" u = Some i ->
  let m1 := fst (fst (cut (drop (i + 2) u) "010"%char)) in
  replace1 u ("#!" ++ m1) new = take i u ++ new ++ drop (i + 2 + String.length m1) u.
Proof.
  intros u i new H m1. unfold replace1.
  rewrite (index_extend u "#!" m1 i); [|discriminate|exact H|].
  - f_equal. f_equal. f_equal. simpl. lia.
  - rewrite (index_drop u "#!" i H). simpl String.length.
    change ("#!" ++ m1) with ("#!" ++ m1). rewrite prefix_app_same.
    apply cut_prefix.
Qed.

End FragmentToken.

(** C6 (counterexample): an escaped space in the payload is written [+],
    not percent-encoded: on the payload [a b] the code's token is
    [_escaped_fragment_=a+b] where the percent-encoding reading gives
    [_escaped_fragment_=a%20b], and the page [http://x.com/p#!a%20b]
    is rewritten to [http://x.com/p?_escaped_fragment_=a+b]. *)
Lemma C6_space_written_as_plus :
  escaped_fragment_of "a b" = "_escaped_fragment_=a+b" /\
  claimed_token "a b" = "_escaped_fragment_=a%20b" /\
  option_map String_
    (EscapedFragmentUrl (fst (toFragmentUrl
       (Fixture.scraper_at (Fixture.url_of "http://x.com/p#!a%20b") 3))))
  = Some "http://x.com/p?_escaped_fragment_=a+b".
Proof. vm_compute. repeat split. Qed.

(** C6: when the percent-decoded URL [u] (from [url.QueryUnescape] of the
    URL's string) has its first hash-bang at [i], [toFragmentUrl] replaces
    the hash-bang and its payload (the bytes up to the first newline) with
    [?] or [&] followed by [form_token] of the payload, [&] exactly when the
    URL's query has a parameter, and parses the result: the parsed URL
    becomes the escaped-fragment URL, and a parse error leaves the scraper
    unchanged.  [form_token] drops the runes whose low byte is a control
    byte, query-escapes (space as [+], other bytes as [%XX]) those whose low
    byte is space, [#], [%], [&], [+] or at least 127, and keeps the rest. *)
Theorem C6_fragment_rewrite (sc : Scraper) (u : string) (i : nat) :
  QueryUnescape (String_ sc.(Url)) = Ok u ->
  str_index u "#!" = Some i ->
  let m1 := fst (fst (cut (drop (i + 2) u) "010"%char)) in
  let p := if query_nonempty sc.(Url) then "&" else "?" in
  toFragmentUrl sc =
    match Parse (take i u ++ p ++ form_token m1 ++ drop (i + 2 + String.length m1) u) with
    | Ok fu => (set_EscapedFragmentUrl sc (Some fu), Ok tt)
    | Err e => (sc, Err e)
    | Panic m => (sc, Panic m)
    end.
Proof.
  intros Hq Hi m1 p. unfold toFragmentUrl. rewrite Hq.
  unfold fragmentMatch. rewrite Hi. cbv beta iota zeta.
  rewrite replace_hashbang by exact Hi.
  rewrite escaped_fragment_form_token, str_app_assoc. reflexivity.
Qed.

(** The rewrite of [http://x.com/p?q=1#!a b] (a decoded space in the
    payload). *)
Lemma C6_witness :
  QueryUnescape (String_ (Fixture.url_of "http://x.com/p?q=1#!a%20b"))
    = Ok "http://x.com/p?q=1#!a b" /\
  str_index "http://x.com/p?q=1#!a b" "#!" = Some 18 /\
  toFragmentUrl (Fixture.scraper_at (Fixture.url_of "http://x.com/p?q=1#!a%20b") 3)
  = match Parse ("http://x.com/p?q=1" ++ "&" ++ form_token "a b") with
    | Ok fu => (set_EscapedFragmentUrl
                  (Fixture.scraper_at (Fixture.url_of "http://x.com/p?q=1#!a%20b") 3)
                  (Some fu), Ok tt)
    | Err e => (Fixture.scraper_at (Fixture.url_of "http://x.com/p?q=1#!a%20b") 3, Err e)
    | Panic m => (Fixture.scraper_at (Fixture.url_of "http://x.com/p?q=1#!a%20b") 3, Panic m)
    end.
Proof.
  assert (Hq : QueryUnescape (String_ (Fixture.url_of "http://x.com/p?q=1#!a%20b"))
               = Ok "http://x.com/p?q=1#!a b") by (vm_compute; reflexivity).
  assert (Hi : str_index "http://x.com/p?q=1#!a b" "#!" = Some 18) by (vm_compute; reflexivity).
  split; [exact Hq|split; [exact Hi|]].
  pose proof (C6_fragment_rewrite
                (Fixture.scraper_at (Fixture.url_of "http://x.com/p?q=1#!a%20b") 3)
                _ _ Hq Hi) as E.
  cbv zeta in E. rewrite E. vm_compute. reflexivity.
Defined.

(* ================================================================== *)
(** * Further properties of the program *)

(** ** The [User-Agent] default *)

Section UserAgentDefault.

Lemma toFragmentUrl_with_UserAgent : forall sc a,
  toFragmentUrl (with_UserAgent sc a)
  = (with_UserAgent (fst (toFragmentUrl sc)) a, snd (toFragmentUrl sc)).
Proof.
  intros sc a. unfold toFragmentUrl. simpl.
  destruct (QueryUnescape (String_ (Url sc))) as [u| |]; try reflexivity.
  destruct (Parse _); reflexivity.
Qed.

Lemma toFragmentUrl_Options : forall sc, (fst (toFragmentUrl sc)).(Options) = sc.(Options).
Proof.
  intros sc. unfold toFragmentUrl.
  destruct (QueryUnescape (String_ (Url sc))) as [u| |]; try reflexivity.
  destruct (Parse _); reflexivity.
Qed.

(** An empty [UserAgent] option and ["GoScraper"] send the same requests. *)
Lemma getDocument_default_UserAgent : forall T sc,
  sc.(Options).(UserAgent) = "" ->
  getDocument T (with_UserAgent sc "GoScraper")
  = (with_UserAgent (fst (getDocument T sc)) "GoScraper", snd (getDocument T sc)).
Proof.
  intros T sc H. unfold getDocument. cbv zeta.
  set (sc1 := set_MaxRedirect sc (MaxRedirect sc - 1)).
  change (set_MaxRedirect (with_UserAgent sc "GoScraper")
            (MaxRedirect (with_UserAgent sc "GoScraper") - 1))
    with (with_UserAgent sc1 "GoScraper").
  assert (HU1 : UserAgent (Options sc1) = "") by exact H.
  clearbody sc1.
  set (sc2 := if contains (String_ (Url sc1)) "#!" then fst (toFragmentUrl sc1) else sc1).
  replace (if contains (String_ (Url (with_UserAgent sc1 "GoScraper"))) "#!"
           then fst (toFragmentUrl (with_UserAgent sc1 "GoScraper"))
           else with_UserAgent sc1 "GoScraper")
    with (with_UserAgent sc2 "GoScraper")
    by (unfold sc2; simpl; destruct (contains _ _);
        [rewrite toFragmentUrl_with_UserAgent|]; reflexivity).
  assert (HU2 : UserAgent (Options sc2) = "").
  { unfold sc2. destruct (contains _ _); [rewrite toFragmentUrl_Options|]; exact HU1. }
  clearbody sc2.
  set (sc3 := if contains (String_ (Url sc2)) EscapedFragment_
              then set_EscapedFragmentUrl sc2 (Some (Url sc2)) else sc2).
  replace (if contains (String_ (Url (with_UserAgent sc2 "GoScraper"))) EscapedFragment_
           then set_EscapedFragmentUrl (with_UserAgent sc2 "GoScraper")
                  (Some (Url (with_UserAgent sc2 "GoScraper")))
           else with_UserAgent sc2 "GoScraper")
    with (with_UserAgent sc3 "GoScraper")
    by (unfold sc3; simpl; destruct (contains _ _); reflexivity).
  assert (HU3 : UserAgent (Options sc3) = "").
  { unfold sc3. destruct (contains _ _); exact HU2. }
  clearbody sc3.
  replace (if String.eqb (UserAgent (Options (with_UserAgent sc3 "GoScraper"))) ""
           then "GoScraper" else UserAgent (Options (with_UserAgent sc3 "GoScraper")))
    with (if String.eqb (UserAgent (Options sc3)) "" then "GoScraper"
          else UserAgent (Options sc3)) by (rewrite HU3; reflexivity).
  change (getUrl (with_UserAgent sc3 "GoScraper")) with (getUrl sc3).
  change (MaxDocumentLength (Options (with_UserAgent sc3 "GoScraper")))
    with (MaxDocumentLength (Options sc3)).
  repeat match goal with
         | |- context [match ?x with _ => _ end] =>
             lazymatch x with
             | context [with_UserAgent] => fail
             | _ => destruct x
             end
         end; try reflexivity.
Qed.

Lemma getDocument_Options : forall T sc, (fst (getDocument T sc)).(Options) = sc.(Options).
Proof.
  intros T sc. unfold getDocument. cbv zeta.
  set (sc1 := set_MaxRedirect sc (MaxRedirect sc - 1)).
  assert (H1 : Options sc1 = Options sc) by reflexivity. clearbody sc1.
  set (sc2 := if contains (String_ (Url sc1)) "#!" then fst (toFragmentUrl sc1) else sc1).
  assert (H2 : Options sc2 = Options sc).
  { unfold sc2. destruct (contains _ _); [rewrite toFragmentUrl_Options|]; exact H1. }
  clearbody sc2.
  set (sc3 := if contains (String_ (Url sc2)) EscapedFragment_
              then set_EscapedFragmentUrl sc2 (Some (Url sc2)) else sc2).
  assert (H3 : Options sc3 = Options sc).
  { unfold sc3. destruct (contains _ _); exact H2. }
  clearbody sc3.
  repeat match goal with
         | |- context [match ?x with _ => _ end] => destruct x
         end; simpl; exact H3.
Qed.

End UserAgentDefault.

(** ** Scans depend on the scraper's URL, escaped-fragment URL and budget only *)

Lemma list_ind2 {A : Type} (P : list A -> Prop) :
  P [] -> (forall x, P [x]) ->
  (forall x y l, P l -> P (y :: l) -> P (x :: y :: l)) -> forall l, P l.
Proof.
  intros H0 H1 H2 l.
  assert (H : P l /\ forall x, P (x :: l)).
  { induction l as [|y l [IH1 IH2]]; split; auto. }
  apply H.
Qed.

Lemma after_congr : forall sc sc' ls k k',
  sc.(MaxRedirect) = sc'.(MaxRedirect) -> (forall x, k x = k' x) ->
  after sc ls k = after sc' ls k'.
Proof.
  intros sc sc' ls k k' HM Hk. unfold after, decide. rewrite HM.
  repeat match goal with |- context [if ?b then _ else _] => destruct b end; auto.
Qed.

Lemma img_attrs_congr : forall sc sc' attrs imgs,
  sc.(Url) = sc'.(Url) -> img_attrs sc attrs imgs = img_attrs sc' attrs imgs.
Proof.
  intros sc sc' attrs. induction attrs as [|a attrs IH]; intros imgs HU; simpl; auto.
  rewrite HU. destruct (String.eqb _ _); auto.
  destruct (Parse (Val a)) as [u| |]; simpl; auto.
  destruct (negb (IsAbs u)); [destruct (Path u) as [|c r]; [reflexivity|]|];
    [destruct (Ascii.eqb c "/")|]; simpl; auto.
Qed.

Lemma handle_tag_congr : forall sc sc' link tt t ls,
  sc.(Url) = sc'.(Url) -> sc.(EscapedFragmentUrl) = sc'.(EscapedFragmentUrl) ->
  handle_tag sc link tt t ls = handle_tag sc' link tt t ls.
Proof.
  intros sc sc' link tt t ls HU HE. unfold handle_tag, handle_meta.
  rewrite HU, HE. rewrite (img_attrs_congr sc sc') by exact HU. reflexivity.
Qed.

Lemma scan_congr : forall sc sc' link ts ls,
  sc.(Url) = sc'.(Url) -> sc.(EscapedFragmentUrl) = sc'.(EscapedFragmentUrl) ->
  sc.(MaxRedirect) = sc'.(MaxRedirect) ->
  scan sc link ts ls = scan sc' link ts ls.
Proof.
  intros sc sc' link ts ls HU HE HM. revert ls.
  induction ts as [|x|x y l IH1 IH2] using list_ind2; intros ls.
  - reflexivity.
  - simpl. destruct (negb (is_tag (TType x))); [reflexivity|].
    destruct (String.eqb (Data x) "title").
    + destruct (TType x); apply after_congr; auto.
    + rewrite (handle_tag_congr sc sc') by assumption.
      destruct (handle_tag sc' link (TType x) x ls); auto. apply after_congr; auto.
  - cbn [scan]. destruct (negb (is_tag (TType x))); [apply IH2|].
    destruct (String.eqb (Data x) "title").
    + destruct (TType x); apply after_congr; auto.
    + rewrite (handle_tag_congr sc sc') by assumption.
      destruct (handle_tag sc' link (TType x) x ls); auto. apply after_congr; auto.
Qed.

Lemma parseDocument_fuel_default_UserAgent : forall f T doc sc,
  sc.(Options).(UserAgent) = "" ->
  parseDocument_fuel f T doc (with_UserAgent sc "GoScraper")
  = (with_UserAgent (fst (parseDocument_fuel f T doc sc)) "GoScraper",
     snd (parseDocument_fuel f T doc sc)).
Proof.
  induction f as [|f IH]; intros T doc sc H; cbn [parseDocument_fuel];
    change (scan_init (with_UserAgent sc "GoScraper") doc) with (scan_init sc doc);
    rewrite (scan_congr (with_UserAgent sc "GoScraper") sc) by reflexivity;
    destruct (scan sc (Link (Preview doc)) (Body doc) (scan_init sc doc)) as [[p|cu|]| |];
    try reflexivity.
  - change (Url (with_UserAgent sc "GoScraper")) with (Url sc).
    destruct (if IsAbs cu then _ else _) as [cu'| |]; try reflexivity.
    change (set_EscapedFragmentUrl (set_Url (with_UserAgent sc "GoScraper") cu') None)
      with (with_UserAgent (set_EscapedFragmentUrl (set_Url sc cu') None) "GoScraper").
    rewrite getDocument_default_UserAgent by exact H.
    pose proof (getDocument_Options T (set_EscapedFragmentUrl (set_Url sc cu') None)) as HO.
    destruct (getDocument T (set_EscapedFragmentUrl (set_Url sc cu') None))
      as [sc2 [fdoc| |]]; simpl in *; try reflexivity.
    apply IH. rewrite HO. exact H.
  - rewrite toFragmentUrl_with_UserAgent. cbn [fst].
    rewrite getDocument_default_UserAgent
      by (rewrite toFragmentUrl_Options; exact H).
    pose proof (getDocument_Options T (fst (toFragmentUrl sc))) as HO.
    rewrite toFragmentUrl_Options in HO.
    destruct (getDocument T (fst (toFragmentUrl sc))) as [sc2 [fdoc| |]];
      simpl in *; try reflexivity.
    apply IH. rewrite HO. exact H.
Qed.

Lemma Scraper_Scrape_default_UserAgent : forall T sc,
  sc.(Options).(UserAgent) = "" ->
  snd (Scraper_Scrape T (with_UserAgent sc "GoScraper")) = snd (Scraper_Scrape T sc).
Proof.
  intros T sc H. unfold Scraper_Scrape.
  rewrite getDocument_default_UserAgent by exact H.
  pose proof (getDocument_Options T sc) as HO.
  destruct (getDocument T sc) as [sc1 [doc| |]]; simpl; try reflexivity.
  unfold parseDocument. change (MaxRedirect (with_UserAgent sc1 "GoScraper")) with (MaxRedirect sc1).
  cbn [fst] in HO. rewrite parseDocument_fuel_default_UserAgent by (rewrite HO; exact H).
  reflexivity.
Qed.

(** X1: building a scraper with [NewScrapeBuilder] and calling its [Scrape]
    method gives what the function [Scrape] gives for the same settings;
    without [SetUserAgent], the builder's default ["GoScraper"] behaves
    as the zero [ScraperOptions] user agent (the empty string). *)
Theorem X1_builder_scrape : forall T u n l a,
  (x <-? Build (SetUserAgent (SetMaxDocumentLength (SetMaxRedirect (SetUrl NewScrapeBuilder u) n) l) a) ;;
   snd (Scraper_Scrape T x)) = Scrape T u n (mkOptions l a) /\
  (x <-? Build (SetMaxDocumentLength (SetMaxRedirect (SetUrl NewScrapeBuilder u) n) l) ;;
   snd (Scraper_Scrape T x)) = Scrape T u n (mkOptions l "").
Proof.
  intros T u n l a. unfold Build, Scrape. simpl. split.
  - destruct (Parse u); reflexivity.
  - destruct (Parse u) as [v| |]; simpl; try reflexivity.
    exact (Scraper_Scrape_default_UserAgent T (mkScraper v None n (mkOptions l "")) eq_refl).
Qed.


(** ** Invariants of the token loop *)

Section ScanInvariant.

Variables (sc : Scraper) (link : string) (Q : Token -> Prop) (I : ScanState -> Prop).

Hypothesis I_tag : forall t ls ls',
  Q t -> I ls -> is_tag (TType t) = true -> String.eqb (Data t) "title" = false ->
  handle_tag sc link (TType t) t ls = Ok ls' -> I ls'.
Hypothesis I_title : forall ls d, I ls -> I (title_set ls d).

Lemma scan_outcome_incl : forall ts ts' ls r,
  incl ts ts' -> scan_outcome sc link ts ls r -> scan_outcome sc link ts' ls r.
Proof.
  intros ts ts' ls r Hi [H|[H|[t [Ht H]]]]; [left|right; left|right; right]; auto.
  exists t. split; auto.
Qed.

Lemma after_outcome : forall ts ls k, I ls ->
  (decide sc ls = None -> exists ls', I ls' /\ scan_outcome sc link ts ls' (k ls)) ->
  exists ls', I ls' /\ scan_outcome sc link ts ls' (after sc ls k).
Proof.
  intros ts ls k HI Hk. unfold after. destruct (decide sc ls) as [r|] eqn:Hd.
  - exists ls. split; [exact HI|]. right; left. exact Hd.
  - apply Hk. reflexivity.
Qed.

Lemma scan_inv : forall ts ls, Forall Q ts -> I ls ->
  exists ls', I ls' /\ scan_outcome sc link ts ls' (scan sc link ts ls).
Proof.
  assert (Hstep : forall x ts1 ls, Q x -> Forall Q ts1 ->
            (forall ls, I ls -> exists ls', I ls' /\ scan_outcome sc link ts1 ls' (scan sc link ts1 ls)) ->
            (forall t2 ts2, ts1 = t2 :: ts2 -> forall ls, I ls ->
               exists ls', I ls' /\ scan_outcome sc link ts2 ls' (scan sc link ts2 ls)) ->
            I ls ->
            exists ls', I ls' /\ scan_outcome sc link (x :: ts1) ls' (scan sc link (x :: ts1) ls)).
  { intros x ts1 ls Qx Q1 IH1 IH2 HI. cbn [scan].
    destruct (negb (is_tag (TType x))) eqn:Ht.
    - destruct (IH1 ls HI) as [ls' [HI' Ho]]. exists ls'. split; [exact HI'|].
      eapply scan_outcome_incl; [|exact Ho]. intros t Hin. right. exact Hin.
    - apply negb_false_iff in Ht. destruct (String.eqb (Data x) "title") eqn:Hti.
      + destruct (TType x).
        all: try (apply after_outcome; [exact HI|]; intros _;
                  destruct (IH1 ls HI) as [ls' [HI' Ho]]; exists ls'; split; [exact HI'|];
                  eapply scan_outcome_incl; [|exact Ho]; intros t Hin; right; exact Hin).
        destruct ts1 as [|t2 ts2].
        * apply after_outcome; [apply I_title; exact HI|]. intros _.
          exists (title_set ls ""). split; [apply I_title; exact HI|]. left. reflexivity.
        * apply after_outcome; [apply I_title; exact HI|]. intros _.
          destruct (IH2 t2 ts2 eq_refl (title_set ls (Data t2)) (I_title _ _ HI))
            as [ls' [HI' Ho]].
          exists ls'. split; [exact HI'|].
          eapply scan_outcome_incl; [|exact Ho]. intros t Hin. right; right. exact Hin.
      + destruct (handle_tag sc link (TType x) x ls) as [ls1| |] eqn:Hh.
        * pose proof (I_tag x ls ls1 Qx HI Ht Hti Hh) as HI1.
          apply after_outcome; [exact HI1|]. intros _.
          destruct (IH1 ls1 HI1) as [ls' [HI' Ho]].
          exists ls'. split; [exact HI'|].
          eapply scan_outcome_incl; [|exact Ho]. intros t Hin. right. exact Hin.
        * exists ls. split; [exact HI|]. right; right. exists x.
          split; [left; reflexivity|]. rewrite Hh. auto.
        * exists ls. split; [exact HI|]. right; right. exists x.
          split; [left; reflexivity|]. rewrite Hh. auto. }
  intros ts. induction ts as [|x|x y l IH1 IH2] using list_ind2; intros ls HQ HI.
  - exists ls. split; [exact HI|]. left. reflexivity.
  - inversion HQ as [|? ? Qx Q1]; subst. apply Hstep; [exact Qx|exact Q1| | |exact HI].
    + intros ls0 HI0. exists ls0. split; [exact HI0|]. left. reflexivity.
    + intros t2 ts2 Heq. discriminate.
  - inversion HQ as [|? ? Qx Q1]; subst. inversion Q1 as [|? ? Qy Ql]; subst.
    apply Hstep; [exact Qx|exact Q1| | |exact HI].
    + intros ls0 HI0. exact (IH2 ls0 Q1 HI0).
    + intros t2 ts2 Heq. inversion Heq; subst. intros ls0 HI0. exact (IH1 ls0 Ql HI0).
Qed.

End ScanInvariant.

(** ** What each case of the loop leaves alone *)

Lemma link_attrs_frame : forall link attrs c h href ls ls',
  link_attrs link attrs c h href ls = Ok ls' ->
  ogImage ls' = ogImage ls /\ headPassed ls' = headPassed ls /\
  hasFragment ls' = hasFragment ls /\
  Name ls'.(preview) = Name ls.(preview) /\ Images ls'.(preview) = Images ls.(preview).
Proof.
  intros link attrs. induction attrs as [|a attrs IH]; intros c h href ls ls' H.
  - inversion H; subst. auto.
  - cbn [link_attrs] in H.
    match type of H with rbind ?r _ = _ => destruct r as [ls1| |] eqn:E1 end;
      [|discriminate|discriminate].
    cbn [rbind] in H. apply IH in H.
    assert (ogImage ls1 = ogImage ls /\ headPassed ls1 = headPassed ls /\
            hasFragment ls1 = hasFragment ls /\ preview ls1 = preview ls) as (A1 & A2 & A3 & A4).
    { match type of E1 with context [if ?b then _ else Ok ls] => destruct b end;
        [|inversion E1; auto].
      destruct (Parse _); inversion E1; auto. }
    match type of H with context [if ?b then set_preview _ _ else _] => destruct b end;
      simpl in H; rewrite <- A1, <- A2, <- A3, <- A4; exact H.
Qed.

Lemma handle_meta_frame : forall sc t ls ls',
  handle_meta sc t ls = Ok ls' ->
  headPassed ls' = headPassed ls /\ hasCanonical ls' = hasCanonical ls /\
  canonicalUrl ls' = canonicalUrl ls /\ Icon ls'.(preview) = Icon ls.(preview) /\
  (sc.(EscapedFragmentUrl) <> None -> hasFragment ls' = hasFragment ls) /\
  (ogImage ls = true -> ogImage ls' = true).
Proof.
  intros sc t ls ls' H. unfold handle_meta in H.
  destruct (negb _); [inversion H; subst; repeat split; auto|].
  set (ls0 := if metaFragment t && _ then set_hasFragment ls else ls) in H.
  assert (F : headPassed ls0 = headPassed ls /\ hasCanonical ls0 = hasCanonical ls /\
              canonicalUrl ls0 = canonicalUrl ls /\ preview ls0 = preview ls /\
              (sc.(EscapedFragmentUrl) <> None -> hasFragment ls0 = hasFragment ls) /\
              ogImage ls0 = ogImage ls).
  { unfold ls0. destruct (EscapedFragmentUrl sc); rewrite ?andb_false_r;
      [|destruct (metaFragment t)]; repeat split; auto; intros Hn; congruence. }
  clearbody ls0. destruct F as (F1 & F2 & F3 & F4 & F5 & F6).
  destruct (meta_property_content (Attr t)) as [property content].
  repeat match type of H with
         | (if ?b then _ else _) = _ => destruct b
         end;
    try (destruct (Parse content)); inversion H; subst; simpl; rewrite ?F4;
    repeat split; intros; first [congruence | apply F5; assumption | reflexivity].
Qed.

Lemma img_tag_frame : forall sc link t ls ls',
  String.eqb (Data t) "img" = true -> handle_tag sc link (TType t) t ls = Ok ls' ->
  headPassed ls' = headPassed ls /\ hasCanonical ls' = hasCanonical ls /\
  canonicalUrl ls' = canonicalUrl ls /\ hasFragment ls' = hasFragment ls /\
  ogImage ls' = ogImage ls /\ Icon ls'.(preview) = Icon ls.(preview) /\
  Name ls'.(preview) = Name ls.(preview).
Proof.
  intros sc link t ls ls' Hd H. unfold handle_tag in H.
  apply String.eqb_eq in Hd. rewrite Hd in H. cbn in H.
  destruct (img_attrs sc (Attr t) (Images (preview ls))); inversion H; subst.
  repeat split; reflexivity.
Qed.





(** ** The [HEAD] request of [getDocument] *)

(** The steps of [getDocument] before its requests keep the options. *)
Ltac prepare_getDocument sc H :=
  unfold getDocument; cbv zeta;
  let sc1 := fresh "sc1" in let sc2 := fresh "sc2" in let sc3 := fresh "sc3" in
  let H1 := fresh "H1" in let H2 := fresh "H2" in
  set (sc1 := set_MaxRedirect sc (MaxRedirect sc - 1));
  assert (H1 : Options sc1 = Options sc) by reflexivity; clearbody sc1;
  set (sc2 := if contains (String_ (Url sc1)) "#!" then fst (toFragmentUrl sc1) else sc1);
  assert (H2 : Options sc2 = Options sc)
    by (unfold sc2; destruct (contains _ _); [rewrite toFragmentUrl_Options|]; exact H1);
  clearbody sc2;
  set (sc3 := if contains (String_ (Url sc2)) EscapedFragment_
              then set_EscapedFragmentUrl sc2 (Some (Url sc2)) else sc2);
  assert (H : Options sc3 = Options sc)
    by (unfold sc3; destruct (contains _ _); exact H2);
  clearbody sc3.

(** X2: without a positive [MaxDocumentLength], [getDocument] sends no
    [HEAD] request: its outcome does not depend on what [HEAD] would answer. *)
Theorem X2_no_head_without_limit : forall T h' sc,
  (sc.(Options).(MaxDocumentLength) <= 0)%Z ->
  getDocument T sc = getDocument (mkTransport h' T.(get)) sc.
Proof.
  intros T h' sc Hle. prepare_getDocument sc HO.
  replace (0 <? MaxDocumentLength (Options sc3))%Z with false
    by (symmetry; apply Z.ltb_ge; rewrite HO; exact Hle).
  reflexivity.
Qed.

Lemma X2_witness :
  let sc := Fixture.scraper_at Fixture.page_url 3 in
  (sc.(Options).(MaxDocumentLength) <= 0)%Z /\
  getDocument Fixture.transport sc
  = getDocument (mkTransport (fun _ _ => Some 1000%Z) Fixture.transport.(get)) sc.
Proof.
  intros sc. split; [simpl; lia|].
  apply X2_no_head_without_limit. simpl; lia.
Defined.

(** X3: with a positive [MaxDocumentLength], a [HEAD] answer whose
    Content-Length exceeds it stops [getDocument] before any [GET]: the
    outcome does not depend on the [GET] answer and is never a document. *)
Theorem X3_content_length_guard : forall T g' sc,
  (0 < sc.(Options).(MaxDocumentLength))%Z ->
  (forall ua u, exists len, T.(head) ua u = Some len /\ (sc.(Options).(MaxDocumentLength) < len)%Z) ->
  getDocument T sc = getDocument (mkTransport T.(head) g') sc /\
  (forall d, snd (getDocument T sc) <> Ok d).
Proof.
  intros T g' sc Hpos Hhead. prepare_getDocument sc HO.
  replace (0 <? MaxDocumentLength (Options sc3))%Z with true
    by (symmetry; apply Z.ltb_lt; rewrite HO; exact Hpos).
  cbn [head get].
  destruct (Parse (getUrl sc3)) as [v|e|m] eqn:HP.
  - match goal with |- context [head T ?ua ?u] =>
      destruct (Hhead ua u) as [len [Hl Hlt]]; rewrite Hl end.
    rewrite HO. replace (MaxDocumentLength (Options sc) <? len)%Z with true
      by (symmetry; apply Z.ltb_lt; exact Hlt).
    split; [reflexivity|]. intros d. discriminate.
  - split; [reflexivity|]. intros d. discriminate.
  - split; [reflexivity|]. intros d. discriminate.
Qed.

Lemma X3_witness :
  let sc := mkScraper Fixture.page_url None 3 (mkOptions 10 "") in
  let T := mkTransport (fun _ _ => Some 1000%Z) Fixture.transport.(get) in
  (0 < sc.(Options).(MaxDocumentLength))%Z /\
  (forall ua u, exists len, T.(head) ua u = Some len /\ (sc.(Options).(MaxDocumentLength) < len)%Z) /\
  getDocument T sc = getDocument (mkTransport T.(head) Fixture.offline.(get)) sc /\
  (forall d, snd (getDocument T sc) <> Ok d).
Proof.
  intros sc T.
  assert (Hp : (0 < sc.(Options).(MaxDocumentLength))%Z) by (simpl; lia).
  assert (Hh : forall ua u, exists len, T.(head) ua u = Some len
                 /\ (sc.(Options).(MaxDocumentLength) < len)%Z)
    by (intros ua u; exists 1000%Z; simpl; split; [reflexivity|lia]).
  split; [exact Hp|]. split; [exact Hh|].
  exact (X3_content_length_guard T Fixture.offline.(get) sc Hp Hh).
Defined.

(** ** What the token loop can end with *)

Lemma set_headPassed_frame : forall ls,
  hasFragment (set_headPassed ls) = hasFragment ls /\
  hasCanonical (set_headPassed ls) = hasCanonical ls /\
  canonicalUrl (set_headPassed ls) = canonicalUrl ls /\
  preview (set_headPassed ls) = preview ls.
Proof. intros ls. repeat split. Qed.

Lemma title_set_frame : forall ls d,
  hasFragment (title_set ls d) = hasFragment ls /\
  hasCanonical (title_set ls d) = hasCanonical ls /\
  canonicalUrl (title_set ls d) = canonicalUrl ls /\
  Name (preview (title_set ls d)) = Name (preview ls) /\
  Icon (preview (title_set ls d)) = Icon (preview ls).
Proof. intros ls d. unfold title_set. destruct (_ =? _)%nat; repeat split. Qed.

Lemma Forall_trivial {A} : forall l : list A, Forall (fun _ => True) l.
Proof. intros l. apply Forall_forall. intros _ _. exact I. Qed.

(** The cases of [handle_tag] by tag name. *)
Lemma handle_tag_cases : forall sc link t ls ls',
  handle_tag sc link (TType t) t ls = Ok ls' ->
  (ls' = ls \/ ls' = set_headPassed ls) \/
  (Data t = "link" /\ link_attrs link (Attr t) false false "" ls = Ok ls') \/
  (Data t = "meta" /\ handle_meta sc t ls = Ok ls') \/
  (Data t = "img" /\ handle_tag sc link (TType t) t ls = Ok ls').
Proof.
  intros sc link t ls ls' H. pose proof H as H0. unfold handle_tag in H.
  destruct (String.eqb (Data t) "head"); [left; destruct (TType t); inversion H; auto|].
  destruct (String.eqb (Data t) "body"); [left; inversion H; auto|].
  destruct (String.eqb (Data t) "link") eqn:E1;
    [right; left; apply String.eqb_eq in E1; auto|].
  destruct (String.eqb (Data t) "meta") eqn:E2;
    [right; right; left; apply String.eqb_eq in E2; auto|].
  destruct (String.eqb (Data t) "img") eqn:E3;
    [right; right; right; apply String.eqb_eq in E3; auto|].
  left; left; inversion H; auto.
Qed.

Lemma handle_tag_hasFragment : forall sc link t ls ls',
  sc.(EscapedFragmentUrl) <> None ->
  handle_tag sc link (TType t) t ls = Ok ls' -> hasFragment ls' = hasFragment ls.
Proof.
  intros sc link t ls ls' Hn H.
  destruct (handle_tag_cases sc link t ls ls' H) as [[->| ->]|[[_ H1]|[[_ H1]|[Hd H1]]]].
  - reflexivity.
  - reflexivity.
  - apply link_attrs_frame in H1. tauto.
  - apply handle_meta_frame in H1. tauto.
  - apply String.eqb_eq in Hd. apply (img_tag_frame sc link t ls ls' Hd) in H1. tauto.
Qed.

Lemma decide_hasFragment : forall sc ls,
  hasFragment ls = false -> decide sc ls <> Some (Ok FragmentRedirect).
Proof.
  intros sc ls H. unfold decide. rewrite H.
  destruct (_ && _ && _); [destruct (canonicalUrl ls); discriminate|].
  cbn [andb]. destruct (_ && _); discriminate.
Qed.

(** X6: once the scraper has an escaped-fragment URL, a scan never ends in
    a fragment redirect, whatever [fragment] meta tag the page has. *)
Theorem X6_no_fragment_redirect_twice : forall sc link ts doc,
  sc.(EscapedFragmentUrl) <> None ->
  scan sc link ts (scan_init sc doc) <> Ok FragmentRedirect.
Proof.
  intros sc link ts doc Hn.
  destruct (scan_inv sc link (fun _ => True) (fun ls => hasFragment ls = false)
              ltac:(intros t ls ls' _ HI _ _ Ht; rewrite <- HI;
                    exact (handle_tag_hasFragment sc link t ls ls' Hn Ht))
              ltac:(intros ls d HI; rewrite <- HI; apply title_set_frame)
              ts (scan_init sc doc) (Forall_trivial ts) eq_refl) as [ls' [HI Ho]].
  destruct Ho as [Ho|[Ho|[t [_ [_ [_ Ho]]]]]].
  - rewrite Ho. discriminate.
  - intros E. rewrite E in Ho. exact (decide_hasFragment sc ls' HI Ho).
  - destruct (handle_tag _ _ _ _ _); [contradiction| |]; rewrite Ho; discriminate.
Qed.

Lemma X6_witness :
  let sc := mkScraper Fixture.page_url (Some Fixture.page_url) 3 (mkOptions 0 "") in
  let doc := Fixture.page [Fixture.start_tag "meta" [("name", "fragment"); ("content", "!")];
                           Fixture.end_tag "head"] in
  sc.(EscapedFragmentUrl) <> None /\
  scan sc (Link (Preview doc)) (Body doc) (scan_init sc doc) <> Ok FragmentRedirect.
Proof.
  intros sc doc. assert (Hn : sc.(EscapedFragmentUrl) <> None) by discriminate.
  split; [exact Hn|]. exact (X6_no_fragment_redirect_twice sc _ _ doc Hn).
Defined.

(** ** Where a canonical redirect comes from *)





(** ** Which panics the token loop can raise *)

(** [url.Parse] returns a URL or an error, never a panic. *)
Ltac no_panic_tac :=
  repeat match goal with
  | H : Ok _ = Panic _ |- _ => discriminate H
  | H : Err _ = Panic _ |- _ => discriminate H
  | H : rbind ?r _ = Panic _ |- _ =>
      let E := fresh "E" in destruct r eqn:E; cbn [rbind] in H
  | H : (if ?b then _ else _) = Panic _ |- _ => destruct b
  | H : (match ?x with _ => _ end) = Panic _ |- _ => destruct x
  end.

Lemma unescape_no_panic : forall s mode m, unescape s mode = Panic m -> False.
Proof. intros s mode m H. unfold unescape in H. no_panic_tac. Qed.

Lemma setPath_no_panic : forall u p m, setPath u p = Panic m -> False.
Proof.
  intros u p m H. unfold setPath in H. no_panic_tac; eapply unescape_no_panic; eassumption.
Qed.

Lemma setFragment_no_panic : forall u f m, setFragment u f = Panic m -> False.
Proof.
  intros u f m H. unfold setFragment in H. no_panic_tac; eapply unescape_no_panic; eassumption.
Qed.

Lemma parseHost_no_panic : forall h m, parseHost h = Panic m -> False.
Proof.
  intros h m H. unfold parseHost in H. no_panic_tac; eapply unescape_no_panic; eassumption.
Qed.

Lemma parseAuthority_no_panic : forall a m, parseAuthority a = Panic m -> False.
Proof.
  intros a m H. unfold parseAuthority in H.
  no_panic_tac; first [eapply unescape_no_panic; eassumption | eapply parseHost_no_panic; eassumption].
Qed.

Lemma Parse_no_panic : forall s m, Parse s = Panic m -> False.
Proof.
  intros s m H. unfold Parse, parse, getScheme in H.
  no_panic_tac;
    first [eapply setPath_no_panic; eassumption | eapply setFragment_no_panic; eassumption
          | eapply parseAuthority_no_panic; eassumption].
Qed.









(** ** The defaults of [Name] and [Icon] *)










(** ** Where [getDocument] sends its requests *)

Lemma toFragmentUrl_set_MaxRedirect : forall sc n,
  toFragmentUrl (set_MaxRedirect sc n)
  = (set_MaxRedirect (fst (toFragmentUrl sc)) n, snd (toFragmentUrl sc)).
Proof.
  intros sc n. unfold toFragmentUrl. simpl.
  destruct (QueryUnescape (String_ (Url sc))) as [u| |]; try reflexivity.
  destruct (Parse _); reflexivity.
Qed.

(** X4: for a URL with a hash-bang and no [_escaped_fragment_=], once
    [toFragmentUrl] succeeds with the URL [v], every request of
    [getDocument] goes to [v]: two transports that answer alike at [v]
    give the same outcome. *)
Theorem X4_fragment_url_fetched : forall T T' sc v,
  contains (String_ sc.(Url)) "#!" = true ->
  contains (String_ sc.(Url)) EscapedFragment_ = false ->
  toFragmentUrl sc = (set_EscapedFragmentUrl sc (Some v), Ok tt) ->
  (forall ua, T.(head) ua (String_ v) = T'.(head) ua (String_ v)) ->
  (forall ua n, T.(get) ua (String_ v) n = T'.(get) ua (String_ v) n) ->
  getDocument T sc = getDocument T' sc.
Proof.
  intros T T' sc v Hh He Hf Hhead Hget. unfold getDocument. cbv zeta.
  cbn [Url set_MaxRedirect]. rewrite Hh, toFragmentUrl_set_MaxRedirect, Hf. cbn [fst].
  change (Url (set_MaxRedirect (set_EscapedFragmentUrl sc (Some v)) (MaxRedirect sc - 1)))
    with (Url sc).
  rewrite He.
  change (getUrl (set_MaxRedirect (set_EscapedFragmentUrl sc (Some v)) (MaxRedirect sc - 1)))
    with (String_ v).
  rewrite !Hhead, !Hget. reflexivity.
Qed.

Lemma X4_witness :
  let sc := Fixture.scraper_at (Fixture.url_of "http://x.com/p#!a b") 3 in
  let v := Fixture.url_of "http://x.com/p?_escaped_fragment_=a+b" in
  let T' := mkTransport (fun _ _ => None)
              (fun ua u n => if String.eqb u (String_ v) then Fixture.transport.(get) ua u n
                             else Err TransportError) in
  contains (String_ sc.(Url)) "#!" = true /\
  contains (String_ sc.(Url)) EscapedFragment_ = false /\
  toFragmentUrl sc = (set_EscapedFragmentUrl sc (Some v), Ok tt) /\
  (forall ua, Fixture.transport.(head) ua (String_ v) = T'.(head) ua (String_ v)) /\
  (forall ua n, Fixture.transport.(get) ua (String_ v) n = T'.(get) ua (String_ v) n) /\
  getDocument Fixture.transport sc = getDocument T' sc.
Proof.
  intros sc v T'.
  assert (H1 : contains (String_ sc.(Url)) "#!" = true) by (vm_compute; reflexivity).
  assert (H2 : contains (String_ sc.(Url)) EscapedFragment_ = false) by (vm_compute; reflexivity).
  assert (H3 : toFragmentUrl sc = (set_EscapedFragmentUrl sc (Some v), Ok tt)) by (vm_compute; reflexivity).
  assert (H4 : forall ua, Fixture.transport.(head) ua (String_ v) = T'.(head) ua (String_ v))
    by reflexivity.
  assert (H5 : forall ua n, Fixture.transport.(get) ua (String_ v) n = T'.(get) ua (String_ v) n)
    by (intros ua n; unfold T'; cbn [get]; rewrite String.eqb_refl; reflexivity).
  split; [exact H1|]. split; [exact H2|]. split; [exact H3|]. split; [exact H4|].
  split; [exact H5|].
  exact (X4_fragment_url_fetched Fixture.transport T' sc v H1 H2 H3 H4 H5).
Defined.

(** ** [url.QueryEscape] and [url.QueryUnescape] *)

Lemma escape_cons : forall c r mode,
  escape (String c r) mode = escape (String c EmptyString) mode ++ escape r mode.
Proof.
  intros c r mode. cbn [escape].
  destruct (shouldEscape c mode); [|reflexivity].
  destruct (_ && _); reflexivity.
Qed.

Lemma query_chunk_check : forall c rest,
  unescape_check (escape (String c EmptyString) encodeQueryComponent ++ rest) encodeQueryComponent
  = unescape_check rest encodeQueryComponent.
Proof.
  intros c rest. destruct c as [[] [] [] [] [] [] [] []]; reflexivity.
Qed.

Lemma query_chunk_decode : forall c rest,
  unescape_decode (escape (String c EmptyString) encodeQueryComponent ++ rest) encodeQueryComponent
  = String c (unescape_decode rest encodeQueryComponent).
Proof.
  intros c rest. destruct c as [[] [] [] [] [] [] [] []]; reflexivity.
Qed.

(** X11: [QueryUnescape] undoes [QueryEscape] on every string. *)
Theorem X11_query_escape_roundtrip : forall s, QueryUnescape (QueryEscape s) = Ok s.
Proof.
  intros s. unfold QueryUnescape, QueryEscape, unescape.
  assert (H : unescape_check (escape s encodeQueryComponent) encodeQueryComponent = None /\
              unescape_decode (escape s encodeQueryComponent) encodeQueryComponent = s).
  { induction s as [|c r [IH1 IH2]]; [split; reflexivity|].
    rewrite escape_cons, query_chunk_check, query_chunk_decode, IH1, IH2. split; reflexivity. }
  destruct H as [-> ->]. reflexivity.
Qed.

(** ** The escaped-fragment token decodes back to the fragment *)

Lemma form_chunk_unescape : forall c rest,
  unescape_check ((if Ascii.eqb c " " then "+" else pct_byte c) ++ rest) encodeQueryComponent
  = unescape_check rest encodeQueryComponent /\
  unescape_decode ((if Ascii.eqb c " " then "+" else pct_byte c) ++ rest) encodeQueryComponent
  = String c (unescape_decode rest encodeQueryComponent).
Proof.
  intros c rest. destruct c as [[] [] [] [] [] [] [] []]; split; reflexivity.
Qed.

Lemma form_encode_unescape : forall s rest,
  unescape_check (form_encode s ++ rest) encodeQueryComponent
  = unescape_check rest encodeQueryComponent /\
  unescape_decode (form_encode s ++ rest) encodeQueryComponent
  = s ++ unescape_decode rest encodeQueryComponent.
Proof.
  induction s as [|c s IH]; intros rest; [split; reflexivity|].
  cbn [form_encode]. rewrite str_app_assoc.
  destruct (form_chunk_unescape c (form_encode s ++ rest)) as [E1 E2].
  rewrite E1, E2. destruct (IH rest) as [E3 E4]. rewrite E3, E4. split; reflexivity.
Qed.

Lemma plain_unescape : forall s rest,
  Forall (fun c => c <> "%"%char /\ c <> "+"%char) (list_ascii_of_string s) ->
  unescape_check (s ++ rest) encodeQueryComponent = unescape_check rest encodeQueryComponent /\
  unescape_decode (s ++ rest) encodeQueryComponent = s ++ unescape_decode rest encodeQueryComponent.
Proof.
  induction s as [|c s IH]; intros rest H; [split; reflexivity|].
  inversion H as [|? ? [Hp Hq] Hs]; subst.
  cbn [append unescape_check unescape_decode].
  apply Ascii.eqb_neq in Hp, Hq. rewrite Hp, Hq. cbn [is_host_mode andb].
  destruct (IH rest Hs) as [E1 E2]. rewrite E1, E2. split; reflexivity.
Qed.

Lemma rune_string_plain : forall r,
  avoidByte (r mod 256)%N = false -> escapeByte (r mod 256)%N = false ->
  Forall (fun c => c <> "%"%char /\ c <> "+"%char) (list_ascii_of_string (rune_string r)).
Proof.
  intros r Ha He. destruct (N.lt_ge_cases r 128) as [Hlt|Hge].
  - assert (Hm : (r mod 256 = r)%N) by (apply N.mod_small; lia). rewrite Hm in He.
    unfold rune_string.
    replace (((55296 <=? r) && (r <=? 57343)) || (1114111 <? r))%N with false
      by (symmetry; apply orb_false_iff; split;
          [apply andb_false_iff; left; apply N.leb_gt; lia | apply N.ltb_ge; lia]).
    replace (r <? 128)%N with true by (symmetry; apply N.ltb_lt; exact Hlt).
    cbn [list_ascii_of_string]. apply Forall_cons; [|apply Forall_nil].
    split; intros E.
    + apply (f_equal N_of_ascii) in E. unfold byte in E.
      rewrite N_ascii_embedding in E by lia. subst r. discriminate He.
    + apply (f_equal N_of_ascii) in E. unfold byte in E.
      rewrite N_ascii_embedding in E by lia. subst r. discriminate He.
  - pose proof (rune_string_high r Hge) as Hh. unfold all_high in Hh.
    eapply Forall_impl; [|exact Hh]. intros c Hc. cbv beta in Hc.
    split; intros E; subst c; cbv in Hc; lia.
Qed.

Lemma token_char_unescape : forall r rest,
  unescape_check (token_char form_encode r ++ rest) encodeQueryComponent
  = unescape_check rest encodeQueryComponent /\
  unescape_decode (token_char form_encode r ++ rest) encodeQueryComponent
  = (if avoidByte (r mod 256)%N then EmptyString else rune_string r)
    ++ unescape_decode rest encodeQueryComponent.
Proof.
  intros r rest. unfold token_char.
  destruct (avoidByte (r mod 256)%N) eqn:Ha; [split; reflexivity|].
  destruct (escapeByte (r mod 256)%N) eqn:He.
  - apply form_encode_unescape.
  - apply plain_unescape. exact (rune_string_plain r Ha He).
Qed.

(** X12: decoding the escaped-fragment token with [url.QueryUnescape], as a
    server reads the [_escaped_fragment_] parameter, gives back
    [_escaped_fragment_=] followed by the runes of the fragment, each in
    its UTF-8 form, without the dropped control runes. *)
Theorem X12_escaped_fragment_decodes : forall m,
  QueryUnescape (escaped_fragment_of m)
  = Ok (EscapedFragment_ ++ concat_str (map (fun r => if avoidByte (r mod 256)%N then EmptyString
                                                     else rune_string r) (runes m))).
Proof.
  intros m. rewrite escaped_fragment_form_token. unfold form_token, QueryUnescape, unescape.
  assert (H : forall l,
    unescape_check (concat_str (map (token_char form_encode) l)) encodeQueryComponent = None /\
    unescape_decode (concat_str (map (token_char form_encode) l)) encodeQueryComponent
    = concat_str (map (fun r => if avoidByte (r mod 256)%N then EmptyString else rune_string r) l)).
  { induction l as [|r l [IH1 IH2]]; [split; reflexivity|].
    cbn [map concat_str]. destruct (token_char_unescape r (concat_str (map (token_char form_encode) l)))
      as [E1 E2]. rewrite E1, E2, IH1, IH2. split; reflexivity. }
  destruct (H (runes m)) as [E1 E2].
  destruct (plain_unescape EscapedFragment_ (concat_str (map (token_char form_encode) (runes m))))
    as [E3 E4].
  { repeat apply Forall_cons; try apply Forall_nil; split; discriminate. }
  rewrite E3, E1, E4, E2. reflexivity.
Qed.

(** ** The escaped-fragment token stays one query parameter *)

Lemma list_ascii_app : forall a b,
  list_ascii_of_string (a ++ b) = (list_ascii_of_string a ++ list_ascii_of_string b)%list.
Proof. induction a as [|c a IH]; intros b; simpl; [reflexivity|rewrite IH; reflexivity]. Qed.

Lemma form_chunk_safe : forall c,
  forallb (fun d => (32 <? ord d)%nat && negb (ord d =? 127)%nat && negb (Ascii.eqb d "#")
                    && negb (Ascii.eqb d "&"))
          (list_ascii_of_string (if Ascii.eqb c " " then "+" else pct_byte c)) = true.
Proof. intros c. destruct c as [[] [] [] [] [] [] [] []]; reflexivity. Qed.

Lemma token_char_safe : forall r,
  forallb (fun d => (32 <? ord d)%nat && negb (ord d =? 127)%nat && negb (Ascii.eqb d "#")
                    && negb (Ascii.eqb d "&"))
          (list_ascii_of_string (token_char form_encode r)) = true.
Proof.
  intros r. unfold token_char.
  destruct (avoidByte (r mod 256)%N) eqn:Ha; [reflexivity|].
  destruct (escapeByte (r mod 256)%N) eqn:He.
  - induction (rune_string r) as [|c s IH]; [reflexivity|].
    cbn [form_encode]. rewrite list_ascii_app, forallb_app, form_chunk_safe, IH. reflexivity.
  - destruct (N.lt_ge_cases r 128) as [Hlt|Hge].
    + assert (Hm : (r mod 256 = r)%N) by (apply N.mod_small; lia). rewrite Hm in Ha, He.
      unfold rune_string.
      replace (((55296 <=? r) && (r <=? 57343)) || (1114111 <? r))%N with false
        by (symmetry; apply orb_false_iff; split;
            [apply andb_false_iff; left; apply N.leb_gt; lia | apply N.ltb_ge; lia]).
      replace (r <? 128)%N with true by (symmetry; apply N.ltb_lt; exact Hlt).
      cbn [list_ascii_of_string forallb]. rewrite andb_true_r.
      unfold avoidByte in Ha. unfold escapeByte in He.
      apply orb_false_iff in Ha. destruct Ha as [Ha1 Ha2].
      apply N.eqb_neq in Ha1. apply N.leb_gt in Ha2.
      apply orb_false_iff in He. destruct He as [He _].
      apply orb_false_iff in He. destruct He as [He He5].
      apply orb_false_iff in He. destruct He as [He He4].
      apply orb_false_iff in He. destruct He as [He _].
      apply orb_false_iff in He. destruct He as [He1 He2].
      apply N.eqb_neq in He1, He2, He4.
      unfold ord. replace (nat_of_ascii (byte r)) with (N.to_nat r)
        by (unfold byte, nat_of_ascii; rewrite N_ascii_embedding by lia; reflexivity).
      assert (Hb : forall d, byte r = d -> N.to_nat r = nat_of_ascii d).
      { intros d <-. unfold byte, nat_of_ascii. rewrite N_ascii_embedding by lia. reflexivity. }
      destruct (Ascii.eqb (byte r) "#") eqn:E1;
        [apply Ascii.eqb_eq, Hb in E1; change (nat_of_ascii "#") with 35%nat in E1; lia|].
      destruct (Ascii.eqb (byte r) "&") eqn:E2;
        [apply Ascii.eqb_eq, Hb in E2; change (nat_of_ascii "&") with 38%nat in E2; lia|].
      replace (32 <? N.to_nat r)%nat with true by (symmetry; apply Nat.ltb_lt; lia).
      replace (N.to_nat r =? 127)%nat with false by (symmetry; apply Nat.eqb_neq; lia).
      reflexivity.
    + pose proof (rune_string_high r Hge) as Hh. unfold all_high in Hh.
      apply forallb_forall. intros c Hc. apply (proj1 (Forall_forall _ _) Hh) in Hc.
      destruct (Ascii.eqb c "#") eqn:E1; [apply Ascii.eqb_eq in E1; subst c; cbv in Hc; lia|].
      destruct (Ascii.eqb c "&") eqn:E2; [apply Ascii.eqb_eq in E2; subst c; cbv in Hc; lia|].
      replace (32 <? ord c)%nat with true by (symmetry; apply Nat.ltb_lt; lia).
      replace (ord c =? 127)%nat with false by (symmetry; apply Nat.eqb_neq; lia).
      reflexivity.
Qed.

(** X13: the escaped-fragment token never contains a control byte, a
    space, DEL, [#] or [&]: in the rewritten URL it stays one query
    parameter and never starts a fragment. *)
Theorem X13_escaped_fragment_safe : forall m,
  forallb (fun d => (32 <? ord d)%nat && negb (ord d =? 127)%nat && negb (Ascii.eqb d "#")
                    && negb (Ascii.eqb d "&"))
          (list_ascii_of_string (escaped_fragment_of m)) = true.
Proof.
  intros m. rewrite escaped_fragment_form_token. unfold form_token.
  rewrite list_ascii_app, forallb_app. change (forallb _ (list_ascii_of_string EscapedFragment_)) with true.
  cbn [andb]. induction (runes m) as [|r l IH]; [reflexivity|].
  cbn [map concat_str]. rewrite list_ascii_app, forallb_app, token_char_safe, IH. reflexivity.
Qed.

(** ** The earlier variant *)

Section LegacyScan.

Variables (sc : Legacy.Scraper) (link : string) (I : Legacy.ScanState -> Prop).

Hypothesis I_tag : forall t ls ls',
  I ls -> is_tag (TType t) = true -> String.eqb (Data t) "title" = false ->
  Legacy.handle_tag sc link (TType t) t ls = Ok ls' -> I ls'.
Hypothesis I_title : forall ls d, I ls -> I (Legacy.title_set ls d).

(** How a scan of the earlier variant ends, from an invariant of its loop. *)
Lemma legacy_scan_inv : forall ts ls, I ls ->
  exists ls', I ls' /\
    (Legacy.scan sc link ts ls = Ok (Legacy.Done ls'.(Legacy.preview)) \/
     Legacy.decide sc ls' = Some (Legacy.scan sc link ts ls) \/
     exists t, In t ts /\
       match Legacy.handle_tag sc link (TType t) t ls' with
       | Ok _ => False
       | Err e => Legacy.scan sc link ts ls = Err e
       | Panic m => Legacy.scan sc link ts ls = Panic m
       end).
Proof.
  pose (P := fun ts r => exists ls', I ls' /\
    (r = Ok (Legacy.Done ls'.(Legacy.preview)) \/ Legacy.decide sc ls' = Some r \/
     exists t, In t ts /\
       match Legacy.handle_tag sc link (TType t) t ls' with
       | Ok _ => False | Err e => r = Err e | Panic m => r = Panic m end)).
  assert (Pincl : forall ts ts' r, incl ts ts' -> P ts r -> P ts' r).
  { intros ts ts' r Hi [ls' [HI' [Ho|[Ho|[t [Hin Ho]]]]]]; exists ls'; split; auto.
    right; right. exists t. auto. }
  assert (Pafter : forall ts ls k, I ls -> (P ts (k ls)) -> P ts (Legacy.after sc ls k)).
  { intros ts ls k HI Hk. unfold Legacy.after. destruct (Legacy.decide sc ls) eqn:Hd; [|exact Hk].
    exists ls. split; [exact HI|]. right; left; exact Hd. }
  assert (Hstep : forall x ts1 ls,
            (forall ls, I ls -> P ts1 (Legacy.scan sc link ts1 ls)) ->
            (forall t2 ts2, ts1 = t2 :: ts2 -> forall ls, I ls -> P ts2 (Legacy.scan sc link ts2 ls)) ->
            I ls -> P (x :: ts1) (Legacy.scan sc link (x :: ts1) ls)).
  { intros x ts1 ls IH1 IH2 HI. cbn [Legacy.scan].
    assert (Hi1 : incl ts1 (x :: ts1)) by (intros t Hin; right; exact Hin).
    destruct (negb (is_tag (TType x))) eqn:Ht; [exact (Pincl _ _ _ Hi1 (IH1 ls HI))|].
    apply negb_false_iff in Ht. destruct (String.eqb (Data x) "title") eqn:Hti.
    - destruct (TType x);
        try (apply Pafter; [exact HI|]; exact (Pincl _ _ _ Hi1 (IH1 ls HI))).
      destruct ts1 as [|t2 ts2].
      + apply Pafter; [apply I_title; exact HI|].
        exists (Legacy.title_set ls ""). split; [apply I_title; exact HI|]. left. reflexivity.
      + apply Pafter; [apply I_title; exact HI|].
        apply (Pincl ts2); [intros t Hin; right; right; exact Hin|].
        exact (IH2 t2 ts2 eq_refl _ (I_title _ _ HI)).
    - destruct (Legacy.handle_tag sc link (TType x) x ls) as [ls1| |] eqn:Hh.
      + pose proof (I_tag x ls ls1 HI Ht Hti Hh) as HI1.
        apply Pafter; [exact HI1|]. exact (Pincl _ _ _ Hi1 (IH1 ls1 HI1)).
      + exists ls. split; [exact HI|]. right; right. exists x. split; [left; reflexivity|].
        rewrite Hh. reflexivity.
      + exists ls. split; [exact HI|]. right; right. exists x. split; [left; reflexivity|].
        rewrite Hh. reflexivity. }
  assert (H : forall ts ls, I ls -> P ts (Legacy.scan sc link ts ls)).
  { intros ts. induction ts as [|x|x y l IH1 IH2] using list_ind2; intros ls HI.
    - exists ls. split; [exact HI|]. left. reflexivity.
    - apply Hstep; [|intros t2 ts2 Heq; discriminate|exact HI].
      intros ls0 HI0. exists ls0. split; [exact HI0|]. left. reflexivity.
    - apply Hstep; [exact IH2| |exact HI].
      intros t2 ts2 Heq. inversion Heq; subst. exact IH1. }
  exact H.
Qed.

End LegacyScan.

Lemma legacy_link_attrs : forall link attrs c href ls,
  (Legacy.hasCanonical ls = true -> Legacy.canonicalUrl ls <> None) ->
  match Legacy.link_attrs link attrs c href ls with
  | Ok ls' => Legacy.hasCanonical ls' = true -> Legacy.canonicalUrl ls' <> None
  | Err _ => True
  | Panic _ => False
  end.
Proof.
  intros link attrs. induction attrs as [|a attrs IH]; intros c href ls HI; [exact HI|].
  cbn [Legacy.link_attrs].
  match goal with |- context [rbind ?r _] => destruct r as [ls1| |] eqn:E1 end.
  - cbn [rbind]. apply IH.
    match type of E1 with (if ?b then _ else _) = _ => destruct b end.
    + destruct (Parse _); inversion E1; subst. intros _. discriminate.
    + inversion E1; subst. exact HI.
  - exact I.
  - match type of E1 with (if ?b then _ else _) = _ => destruct b end; [|discriminate].
    destruct (Parse _) eqn:EP; try discriminate. exact (Parse_no_panic _ _ EP).
Qed.

Lemma legacy_img_attrs : forall sc attrs imgs m, Legacy.img_attrs sc attrs imgs <> Panic m.
Proof.
  intros sc attrs. induction attrs as [|a attrs IH]; intros imgs m; [discriminate|].
  cbn [Legacy.img_attrs]. destruct (String.eqb (cleanStr (Key a)) "src"); [|apply IH].
  destruct (Parse (Val a)) eqn:EP; cbn [rbind]; [apply IH|discriminate|].
  intros _. exact (Parse_no_panic _ _ EP).
Qed.

Lemma legacy_handle_tag : forall sc link t ls,
  (Legacy.hasCanonical ls = true -> Legacy.canonicalUrl ls <> None) ->
  match Legacy.handle_tag sc link (TType t) t ls with
  | Ok ls' => Legacy.hasCanonical ls' = true -> Legacy.canonicalUrl ls' <> None
  | Err _ => True
  | Panic _ => False
  end.
Proof.
  intros sc link t ls HI. unfold Legacy.handle_tag.
  destruct (String.eqb (Data t) "head"); [destruct (TType t); exact HI|].
  destruct (String.eqb (Data t) "body"); [exact HI|].
  destruct (String.eqb (Data t) "link"); [exact (legacy_link_attrs link _ false "" ls HI)|].
  destruct (String.eqb (Data t) "meta").
  - unfold Legacy.handle_meta. destruct (negb _); [exact HI|].
    set (ls0 := if metaFragment t && _ then Legacy.set_hasFragment ls else ls).
    assert (HI0 : Legacy.hasCanonical ls0 = true -> Legacy.canonicalUrl ls0 <> None)
      by (unfold ls0; match goal with |- context [if ?b then _ else _] => destruct b end; exact HI).
    clearbody ls0. destruct (meta_property_content (Attr t)).
    repeat match goal with |- context [if ?b then _ else _] => destruct b end; exact HI0.
  - destruct (String.eqb (Data t) "img"); [|exact HI].
    destruct (Legacy.img_attrs sc (Attr t) _) eqn:E; [exact HI|exact I|].
    exact (legacy_img_attrs _ _ _ _ E).
Qed.

Lemma legacy_decide_no_panic : forall sc ls m,
  (Legacy.hasCanonical ls = true -> Legacy.canonicalUrl ls <> None) ->
  Legacy.decide sc ls <> Some (Panic m).
Proof.
  intros sc ls m HI. unfold Legacy.decide.
  destruct (Legacy.hasCanonical ls), (Legacy.headPassed ls), (0 <? Legacy.MaxRedirect sc)%Z;
    cbn [andb];
    try (destruct (Legacy.canonicalUrl ls) eqn:Eu; [discriminate|exfalso; exact (HI eq_refl eq_refl)]);
    repeat match goal with |- context [if ?b then _ else _] => destruct b end; discriminate.
Qed.

Lemma legacy_scan_no_panic : forall sc link ts doc m,
  Legacy.scan sc link ts (Legacy.scan_init doc) <> Panic m.
Proof.
  intros sc link ts doc m.
  destruct (legacy_scan_inv sc link
              (fun ls => Legacy.hasCanonical ls = true -> Legacy.canonicalUrl ls <> None)
              ltac:(intros t ls ls' HI _ _ Ht; pose proof (legacy_handle_tag sc link t ls HI) as H;
                    rewrite Ht in H; exact H)
              ltac:(intros ls d HI; unfold Legacy.title_set;
                    destruct (_ =? _)%nat; exact HI)
              ts (Legacy.scan_init doc) ltac:(discriminate)) as [ls' [HI Ho]].
  intros E. rewrite E in Ho. destruct Ho as [Ho|[Ho|[t [_ Ho]]]].
  - discriminate.
  - exact (legacy_decide_no_panic sc ls' m HI Ho).
  - pose proof (legacy_handle_tag sc link t ls' HI) as H.
    destruct (Legacy.handle_tag sc link (TType t) t ls'); [contradiction|discriminate|contradiction].
Qed.

(** X14: the token loop of the earlier variant never panics: its [img]
    case does not index the path, and its canonical URL is set whenever
    its canonical flag is. *)
Theorem X14_legacy_scan_no_panic : forall sc link ts doc m,
  Legacy.scan sc link ts (Legacy.scan_init doc) <> Panic m.
Proof.
  exact legacy_scan_no_panic.
Qed.

Lemma legacy_toFragmentUrl_MaxRedirect : forall sc,
  Legacy.MaxRedirect (fst (Legacy.toFragmentUrl sc)) = Legacy.MaxRedirect sc.
Proof.
  intros sc. unfold Legacy.toFragmentUrl.
  destruct (QueryUnescape (String_ (Legacy.Url sc))) as [u| |]; try reflexivity.
  destruct (Parse _); reflexivity.
Qed.

(** The preparation of [Legacy.getDocument]: the budget is lowered by one. *)
Ltac prepare_legacy_getDocument sc H :=
  unfold Legacy.getDocument; cbv zeta;
  let sc1 := fresh "sc1" in let sc2 := fresh "sc2" in let sc3 := fresh "sc3" in
  let H2 := fresh "H2" in
  set (sc1 := Legacy.set_MaxRedirect sc (Legacy.MaxRedirect sc - 1));
  set (sc2 := if contains (String_ (Legacy.Url sc1)) "#!" then fst (Legacy.toFragmentUrl sc1) else sc1);
  assert (H2 : Legacy.MaxRedirect sc2 = (Legacy.MaxRedirect sc - 1)%Z)
    by (unfold sc2; destruct (contains _ _); [rewrite legacy_toFragmentUrl_MaxRedirect|]; reflexivity);
  clearbody sc2;
  set (sc3 := if contains (String_ (Legacy.Url sc2)) EscapedFragment_
              then Legacy.set_EscapedFragmentUrl sc2 (Some (Legacy.Url sc2)) else sc2);
  assert (H : Legacy.MaxRedirect sc3 = (Legacy.MaxRedirect sc - 1)%Z)
    by (unfold sc3; destruct (contains _ _); exact H2);
  clearbody sc3.

Lemma legacy_getDocument_MaxRedirect : forall T sc,
  Legacy.MaxRedirect (fst (Legacy.getDocument T sc)) = (Legacy.MaxRedirect sc - 1)%Z.
Proof.
  intros T sc. prepare_legacy_getDocument sc H3.
  repeat match goal with
         | |- context [match ?x with _ => _ end] => destruct x
         end; simpl; exact H3.
Qed.

Lemma legacy_getDocument_no_panic : forall T sc m,
  (forall u m', T.(Legacy.get) u <> Panic m') -> snd (Legacy.getDocument T sc) <> Panic m.
Proof.
  intros T sc m HT. prepare_legacy_getDocument sc H3.
  destruct (Parse (Legacy.getUrl sc3)) eqn:EP; [|discriminate|exfalso; exact (Parse_no_panic _ _ EP)].
  destruct (Legacy.get T (Legacy.getUrl sc3)) eqn:EG; [discriminate|discriminate|].
  exfalso. exact (HT _ _ EG).
Qed.

(** A scan of the earlier variant ends in a redirect only with a positive
    budget. *)
Lemma legacy_scan_redirect_budget : forall sc link ts ls r,
  Legacy.scan sc link ts ls = Ok r ->
  match r with Legacy.Done _ => False | _ => True end -> (0 < Legacy.MaxRedirect sc)%Z.
Proof.
  intros sc link ts ls r Hs Hr.
  destruct (legacy_scan_inv sc link (fun _ => True) (fun _ _ _ _ _ _ _ => I) (fun _ _ _ => I) ts ls I)
    as [ls' [_ Ho]].
  rewrite Hs in Ho. destruct Ho as [Ho|[Ho|[t [_ Ho]]]].
  - inversion Ho; subst. simpl in Hr. contradiction.
  - unfold Legacy.decide in Ho.
    destruct (Legacy.hasCanonical ls' && Legacy.headPassed ls' && (0 <? Legacy.MaxRedirect sc)%Z) eqn:E1.
    + apply andb_true_iff in E1. destruct E1 as [_ E1]. apply Z.ltb_lt. exact E1.
    + destruct (Legacy.hasFragment ls' && Legacy.headPassed ls' && (0 <? Legacy.MaxRedirect sc)%Z) eqn:E2.
      * apply andb_true_iff in E2. destruct E2 as [_ E2]. apply Z.ltb_lt. exact E2.
      * match type of Ho with (if ?b then _ else _) = _ => destruct b end;
          inversion Ho; subst; simpl in Hr; contradiction.
  - destruct (Legacy.handle_tag sc link (TType t) t ls'); [contradiction|discriminate|discriminate].
Qed.

(** The fuel of [Legacy.parseDocument] is enough: any fuel above the
    budget gives the same run. *)
Lemma parseDocument_fuel_enough_legacy : forall n m T doc sc,
  (Z.to_nat (Legacy.MaxRedirect sc) < n)%nat -> (Z.to_nat (Legacy.MaxRedirect sc) < m)%nat ->
  Legacy.parseDocument_fuel n T doc sc = Legacy.parseDocument_fuel m T doc sc.
Proof.
  induction n as [|f IH]; intros m T doc sc Hn Hm; [lia|].
  destruct m as [|g]; [lia|]. simpl.
  destruct (Legacy.scan sc _ _ _) as [[p|cu|]| |] eqn:Hs; try reflexivity.
  - pose proof (legacy_scan_redirect_budget _ _ _ _ _ Hs I) as Hb.
    pose proof (legacy_getDocument_MaxRedirect T
                  (Legacy.set_EscapedFragmentUrl (Legacy.set_Url sc cu) None)) as HG.
    destruct (Legacy.getDocument T _) as [sc2 [fdoc| |]]; try reflexivity.
    simpl in HG. apply IH; rewrite HG; lia.
  - pose proof (legacy_scan_redirect_budget _ _ _ _ _ Hs I) as Hb.
    pose proof (legacy_getDocument_MaxRedirect T (fst (Legacy.toFragmentUrl sc))) as HG.
    rewrite legacy_toFragmentUrl_MaxRedirect in HG.
    destruct (Legacy.getDocument T _) as [sc2 [fdoc| |]]; try reflexivity.
    simpl in HG. apply IH; rewrite HG; lia.
Qed.

Lemma legacy_parseDocument_no_panic : forall fuel T doc sc m,
  (forall u m', T.(Legacy.get) u <> Panic m') ->
  snd (Legacy.parseDocument_fuel fuel T doc sc) <> Panic m.
Proof.
  induction fuel as [|f IH]; intros T doc sc m HT; simpl;
    destruct (Legacy.scan sc _ _ _) as [[p|cu|]|e|m'] eqn:Hs; try discriminate;
    try (exfalso; exact (legacy_scan_no_panic _ _ _ _ _ Hs)).
  - match goal with |- context [Legacy.getDocument T ?s] =>
      pose proof (legacy_getDocument_no_panic T s m HT) as HG; destruct (Legacy.getDocument T s) as [sc2 [fdoc|e|m2]] end;
      [apply IH; exact HT|discriminate|exact HG].
  - match goal with |- context [Legacy.getDocument T ?s] =>
      pose proof (legacy_getDocument_no_panic T s m HT) as HG; destruct (Legacy.getDocument T s) as [sc2 [fdoc|e|m2]] end;
      [apply IH; exact HT|discriminate|exact HG].
Qed.

(** X15: with a transport whose requests never panic, the function [Scrape]
    of the earlier variant never panics, whatever the page and budget. *)
Theorem X15_legacy_scrape_no_panic : forall T uri n m,
  (forall u m', T.(Legacy.get) u <> Panic m') -> Legacy.Scrape T uri n <> Panic m.
Proof.
  intros T uri n m HT. unfold Legacy.Scrape.
  destruct (Parse uri) as [u|e|m'] eqn:EP; [|discriminate|exfalso; exact (Parse_no_panic _ _ EP)].
  unfold Legacy.Scraper_Scrape.
  pose proof (legacy_getDocument_no_panic T (Legacy.mkScraper u None n) m HT) as HG.
  destruct (Legacy.getDocument T _) as [sc1 [doc|e|m2]]; [|discriminate|exact HG].
  unfold Legacy.parseDocument. apply legacy_parseDocument_no_panic. exact HT.
Qed.

Definition legacy_img_transport : Legacy.Transport :=
  Legacy.mkTransport (fun u =>
    match Parse u with
    | Ok v => Ok (mkResponse v "text/html"
                    [mkToken StartTagToken "head" [];
                     mkToken StartTagToken "img" [mkAttr "src" "?q=1"];
                     mkToken EndTagToken "head" []])
    | Err e => Err e
    | Panic _ => Err TransportError
    end).

Lemma X15_witness :
  (forall u m', legacy_img_transport.(Legacy.get) u <> Panic m') /\
  Legacy.Scrape legacy_img_transport "http://example.com/a" 3
    <> Panic "runtime error: index out of range [0] with length 0".
Proof.
  assert (HT : forall u m', legacy_img_transport.(Legacy.get) u <> Panic m').
  { intros u m'. cbn [Legacy.get legacy_img_transport]. destruct (Parse u); discriminate. }
  split; [exact HT|].
  exact (X15_legacy_scrape_no_panic legacy_img_transport "http://example.com/a" 3 _ HT).
Defined.

(* ------------------------------------------------------------------ *)
(** ** [cleanStr] *)













